(** * Avocado Sales API: a shallow embedding of [server.js]

    The service is an Express application over one Mongoose model.  The
    request handlers of [server.js] are embedded as functions in a small
    state-and-exception monad over the collection; the Mongoose model
    ([find], [findOne], [save], [deleteMany], [insertMany]) is the external
    collaborator and is modelled as an equality-filtered document store with
    a uniqueness constraint on the [id] path, after the schema declared in
    [server.js]; a filter is cast to the schema before it is sent, and a
    [NaN] on a [Number] path fails that cast.  A store call can fail for reasons the service does not
    control (connection lost, time-out, a rejection inside the library):
    every call takes as an argument whether it is answered or rejected, and
    the theorems quantify over it. *)

From Stdlib Require Import ZArith QArith String Ascii DecimalString DecimalZ.
From stdpp Require Import gmap strings list fin_maps.

(** ** JavaScript values *)

(** Numbers.  A finite number is kept as the rational it denotes (every
    double is one), compared up to [==]; [Number] below rounds a literal
    to the nearest double. *)
Inductive number :=
| NaN
| Inf (negative : bool)
| Num (q : Q).

(** The values a parsed JSON body or a query string can hold.  Arrays and
    objects are only ever tested for truthiness, so they carry no content. *)
Inductive value :=
| VUndefined
| VNull
| VBool (b : bool)
| VNum (n : number)
| VStr (s : string)
| VObject.

#[global] Instance Q_eq_dec : EqDecision Q.
Proof. solve_decision. Defined.

#[global] Instance number_eq_dec : EqDecision number.
Proof. solve_decision. Defined.

#[global] Instance value_eq_dec : EqDecision value.
Proof. solve_decision. Defined.

(** [ToBoolean]: what [if (v)] and [!v] test. *)
Definition truthy (v : value) : bool :=
  match v with
  | VUndefined | VNull => false
  | VBool b => b
  | VNum NaN => false
  | VNum (Inf _) => true
  | VNum (Num q) => negb (Qeq_bool q 0)
  | VStr EmptyString => false
  | VStr (String _ _) => true
  | VObject => true
  end.

(** Property access [o.k] and destructuring [const { k } = o]: a key that is
    not there reads as [undefined]. *)
Definition prop (o : gmap string value) (k : string) : value :=
  default VUndefined (o !! k).

(** The same for [req.query], whose values are strings (a repeated or
    bracketed parameter, which the query parser turns into an array or an
    object, is not modelled). *)
Definition param (q : gmap string string) (k : string) : value :=
  from_option VStr VUndefined (q !! k).

(** *** [Number(s)] *)

(** Strings are byte strings: a character above U+007F stands as its
    UTF-8 bytes (the no-break space also as the single byte 160, its
    Latin-1 writing). *)
Definition byte (c : ascii) : N := N_of_ascii c.

(** The ASCII white space and line terminators: TAB, LF, VT, FF, CR and
    the space. *)
Definition is_space (c : ascii) : bool :=
  let n := byte c in
  ((9 <=? n) && (n <=? 13) || (n =? 32))%N.

(** The number of bytes of the white-space character or line terminator a
    string starts with, 0 when it starts with none.  Beyond ASCII these are
    U+00A0, U+1680, U+2000 to U+200A, U+2028, U+2029, U+202F, U+205F,
    U+3000 and U+FEFF. *)
Definition space_width (s : string) : nat :=
  match s with
  | EmptyString => 0
  | String a r =>
      if (is_space a || (byte a =? 160))%N then 1
      else
        match r with
        | EmptyString => 0
        | String b r' =>
            if ((byte a =? 194) && (byte b =? 160))%N then 2
            else
              match r' with
              | EmptyString => 0
              | String c _ =>
                  let x := byte a in
                  let y := byte b in
                  let z := byte c in
                  if ((x =? 225) && (y =? 154) && (z =? 128)
                      || (x =? 226) && (y =? 128)
                         && ((128 <=? z) && (z <=? 138)
                             || (z =? 168) || (z =? 169) || (z =? 175))
                      || (x =? 226) && (y =? 129) && (z =? 159)
                      || (x =? 227) && (y =? 128) && (z =? 128)
                      || (x =? 239) && (y =? 187) && (z =? 191))%N
                  then 3 else 0
              end
        end
  end.

(** [skip] bytes of a white-space character are still to be dropped. *)
Fixpoint trim_start_from (skip : nat) (s : string) : string :=
  match s with
  | EmptyString => EmptyString
  | String _ r =>
      match skip with
      | S k => trim_start_from k r
      | O =>
          match space_width s with
          | O => s
          | S k => trim_start_from k r
          end
      end
  end.

Definition trim_start (s : string) : string := trim_start_from 0 s.

(** Nothing but white space. *)
Definition blank (s : string) : bool :=
  match trim_start s with
  | EmptyString => true
  | String _ _ => false
  end.

Fixpoint trim_end (s : string) : string :=
  match s with
  | EmptyString => EmptyString
  | String c r => if blank s then EmptyString else String c (trim_end r)
  end.

Definition trim (s : string) : string := trim_end (trim_start s).

Definition is_digit (c : ascii) : bool :=
  let n := N_of_ascii c in ((48 <=? n) && (n <=? 57))%N.

(** The value of a hexadecimal digit. *)
Definition hexit (c : ascii) : option Z :=
  let n := Z.of_N (N_of_ascii c) in
  if ((48 <=? n) && (n <=? 57))%Z then Some (n - 48)%Z
  else if ((97 <=? n) && (n <=? 102))%Z then Some (n - 87)%Z
  else if ((65 <=? n) && (n <=? 70))%Z then Some (n - 55)%Z
  else None.

Fixpoint numeral_from (radix acc : Z) (s : string) : option Z :=
  match s with
  | EmptyString => Some acc
  | String c r =>
      match hexit c with
      | Some v =>
          if (v <? radix)%Z
          then numeral_from radix (acc * radix + v)%Z r
          else None
      | None => None
      end
  end.

(** A non-empty run of digits of a radix. *)
Definition numeral (radix : Z) (s : string) : option Z :=
  match s with
  | EmptyString => None
  | _ => numeral_from radix 0 s
  end.

(** A non-empty run of decimal digits. *)
Definition digits (s : string) : option Z :=
  Z.of_uint <$> NilZero.uint_of_string s.

(** The longest run of decimal digits a string starts with, and the rest. *)
Fixpoint span_digits (s : string) : string * string :=
  match s with
  | EmptyString => (EmptyString, EmptyString)
  | String c r =>
      if is_digit c
      then let '(ds, rest) := span_digits r in (String c ds, rest)
      else (EmptyString, s)
  end.

(** [ExponentPart], or nothing: the power of ten. *)
Definition exponent_part (s : string) : option Z :=
  match s with
  | EmptyString => Some 0
  | String c r =>
      if (Ascii.eqb c "e" || Ascii.eqb c "E")%char
      then match r with
           | String "+" r' => digits r'
           | String "-" r' => Z.opp <$> digits r'
           | _ => digits r
           end
      else None
  end%Z.

(** [StrUnsignedDecimalLiteral]: [Infinity], or digits with an optional
    fraction and an optional exponent, at least one digit before or after
    the point. *)
Definition unsigned_decimal (s : string) : option number :=
  if String.eqb s "Infinity" then Some (Inf false)
  else
    let '(ip, r1) := span_digits s in
    let '(fp, r2) :=
      match r1 with
      | String "." r => span_digits r
      | _ => (EmptyString, r1)
      end in
    match digits (ip +:+ fp), exponent_part r2 with
    | Some m, Some e =>
        Some (Num (inject_Z m * 10 ^ (e - Z.of_nat (String.length fp)))%Q)
    | _, _ => None
    end.

Definition negate (n : number) : number :=
  match n with
  | NaN => NaN
  | Inf b => Inf (negb b)
  | Num q => Num (- q)%Q
  end.

(** [StrDecimalLiteral]: an unsigned decimal literal with an optional
    sign. *)
Definition signed_decimal (s : string) : option number :=
  match s with
  | EmptyString => None
  | String c r =>
      if Ascii.eqb c "+" then unsigned_decimal r
      else if Ascii.eqb c "-" then negate <$> unsigned_decimal r
      else unsigned_decimal s
  end.

(** The radix the letter after a leading 0 announces. *)
Definition radix_prefix (c : ascii) : option Z :=
  if (Ascii.eqb c "x" || Ascii.eqb c "X")%char then Some 16%Z
  else if (Ascii.eqb c "o" || Ascii.eqb c "O")%char then Some 8%Z
  else if (Ascii.eqb c "b" || Ascii.eqb c "B")%char then Some 2%Z
  else None.

(** [StrNumericLiteral]: an unsigned binary, octal or hexadecimal integer,
    or a signed decimal literal. *)
Definition numeric_literal (s : string) : option number :=
  match s with
  | String c1 (String c2 r) =>
      match (if Ascii.eqb c1 "0" then radix_prefix c2 else None) with
      | Some radix => Num ∘ inject_Z <$> numeral radix r
      | None => signed_decimal s
      end
  | _ => signed_decimal s
  end.

(** Rounding of a quotient of naturals to the nearest integer, ties to
    even. *)
Definition round_half_even (n d : Z) : Z :=
  let k := (n / d)%Z in
  match (2 * (n mod d) ?= d)%Z with
  | Lt => k
  | Gt => (k + 1)%Z
  | Eq => if Z.even k then k else (k + 1)%Z
  end.

(** The double a rational rounds to (round to nearest, ties to even; 53
    bits, exponents -1074 to 971): the number a literal of that value
    reads as.  Past the largest double it is an infinity, below half the
    smallest it is 0. *)
Definition to_double (q : Q) : number :=
  let n := Z.abs (Qnum q) in
  let d := Z.pos (Qden q) in
  if (n =? 0)%Z then Num 0
  else
    let e0 := (Z.log2 n - Z.log2 d)%Z in
    let e :=
      if (if 0 <=? e0 then d * 2 ^ e0 <=? n else d <=? n * 2 ^ (- e0))%Z
      then e0 else (e0 - 1)%Z in
    let u := Z.max (e - 52) (-1074) in
    let m :=
      if (0 <=? u)%Z then round_half_even n (d * 2 ^ u)
      else round_half_even (n * 2 ^ (- u)) d in
    if ((971 <? u) || (u =? 971) && (2 ^ 53 <=? m))%Z
    then Inf (Qnum q <? 0)%Z
    else
      let v := (Z.sgn (Qnum q) * m)%Z in
      if (0 <=? u)%Z then Num (inject_Z (v * 2 ^ u))
      else Num (Qred (v # Z.to_pos (2 ^ (- u)))).

Definition rounded (n : number) : number :=
  match n with
  | Num q => to_double q
  | _ => n
  end.

(** [Number(s)] on a string: the empty (or blank) string is 0, a numeric
    literal between optional white space is the double its value rounds
    to, anything else is [NaN]. *)
Definition Number (s : string) : number :=
  match trim s with
  | EmptyString => Num 0
  | t => from_option rounded NaN (numeric_literal t)
  end.

(** ** The schema and the documents *)

(** [AvocadoSchema]: the eight paths, [Number] or [String], all required. *)
Record avocado := Avocado {
  id : Q;
  date : string;
  region : string;
  averagePrice : Q;
  totalVolume : Q;
  smallBags : Q;
  largeBags : Q;
  xLargeBags : Q
}.

(** A stored document: the schema's paths and the internal identity [_id]
    the store assigns (the constant version key is left out). *)
Record document := Document {
  _id : N;
  doc : avocado
}.

#[global] Instance avocado_eq_dec : EqDecision avocado.
Proof. solve_decision. Defined.

#[global] Instance document_eq_dec : EqDecision document.
Proof. solve_decision. Defined.

(** The value a document holds at a path. *)
Definition path (d : document) (k : string) : value :=
  match k with
  | "id" => VNum (Num (id (doc d)))
  | "date" => VStr (date (doc d))
  | "region" => VStr (region (doc d))
  | "averagePrice" => VNum (Num (averagePrice (doc d)))
  | "totalVolume" => VNum (Num (totalVolume (doc d)))
  | "smallBags" => VNum (Num (smallBags (doc d)))
  | "largeBags" => VNum (Num (largeBags (doc d)))
  | "xLargeBags" => VNum (Num (xLargeBags (doc d)))
  | _ => VUndefined
  end%string.

(** Equality of a stored value with a value of a filter.  A stored number
    is finite; [NaN] equals nothing. *)
Definition equal (stored wanted : value) : bool :=
  match stored, wanted with
  | VNum (Num x), VNum (Num y) => Qeq_bool x y
  | VStr x, VStr y => String.eqb x y
  | _, _ => false
  end.

(** A filter is an object of path/value pairs, combined with AND; the
    empty filter matches every document. *)
Definition matches (filter : gmap string value) (d : document) : Prop :=
  map_Forall (λ k v, equal (path d k) v = true) filter.

#[global] Instance matches_dec filter d : Decision (matches filter d).
Proof. unfold matches. apply _. Defined.

(** ** Errors, replies and the collection *)

(** A JavaScript error as the handlers read it: [err.code], [err.message]. *)
Record error := Error {
  code : option Z;
  message : string
}.

(** How one call on the model goes, which the service cannot tell in
    advance: the call is answered, or it is rejected with some error (the
    engine is unreachable, the operation times out, the library refuses the
    call). *)
Inductive reply :=
| Answers
| Rejects (e : error).

(** The calls made on the model, in order. *)
Inductive call :=
| CFind (filter : gmap string value)
| CFindOne (filter : gmap string value)
| CSave (o : gmap string value)
| CDeleteMany
| CInsertMany (os : list (gmap string value)).

(** The world a handler runs in: the collection in its natural (insertion)
    order, the next internal identity, the calls made so far and the
    console. *)
Record world := World {
  collection : list document;
  next_oid : N;
  journal : list call;
  console : list string
}.

Definition called (c : call) (s : world) : world :=
  {| collection := collection s; next_oid := next_oid s;
     journal := journal s ++ [c]; console := console s |}.

Definition logged (line : string) (s : world) : world :=
  {| collection := collection s; next_oid := next_oid s;
     journal := journal s; console := console s ++ [line] |}.

(** ** The monad of the handlers *)

(** How a piece of code completes: normally, or by throwing (an [await]
    of a rejected promise throws). *)
Inductive completion (A : Type) :=
| Normal (a : A)
| Throw (e : error).
Arguments Normal {A} a.
Arguments Throw {A} e.

Definition M (A : Type) : Type := world → completion A * world.

Definition ret {A} (a : A) : M A := λ s, (Normal a, s).

Definition throw {A} (e : error) : M A := λ s, (Throw e, s).

Definition bind {A B} (m : M A) (k : A → M B) : M B :=
  λ s, match m s with
       | (Normal a, s') => k a s'
       | (Throw e, s') => (Throw e, s')
       end.

(** [try { body } catch (err) { handler }] *)
Definition try_catch {A} (body : M A) (handler : error → M A) : M A :=
  λ s, match body s with
       | (Normal a, s') => (Normal a, s')
       | (Throw e, s') => handler e s'
       end.

Notation "'let*' x := 'await' m 'in' k" := (bind m (λ x, k))
  (at level 10, x name, m at level 100, k at level 200, only parsing).
Notation "'await' m ;; k" := (bind m (λ _, k))
  (at level 100, m at next level, right associativity, only parsing).

Definition lift {A} (c : completion A) : M A := λ s, (c, s).

Definition tell (c : call) : M unit := λ s, (Normal tt, called c s).

(** The round trip of a call: it comes back, or the call rejects. *)
Definition reach (w : reply) : M unit :=
  match w with
  | Answers => ret tt
  | Rejects e => throw e
  end.

Definition console_log (line : string) : M unit :=
  λ s, (Normal tt, logged line s).

Definition console_error (line : string) : M unit :=
  λ s, (Normal tt, logged line s).

(** ** HTTP responses *)

(** What [res.status(n).json(x)] sends. *)
Inductive body :=
| Records (avocados : list document)
| Single (avocado : document)
| Failure (error : string) (details : option string).

Record response := Response {
  status : nat;
  json : body
}.

#[global] Instance body_eq_dec : EqDecision body.
Proof. solve_decision. Defined.

(** The process environment [server.js] reads. *)
Record env := Env {
  MONGO_URL : option string;
  PORT : option string;
  RESET_DB : option string
}.

(** A variable of the environment is a string, or [undefined]. *)
Definition getenv (x : option string) : value :=
  from_option VStr VUndefined x.

(** [const port = process.env.PORT || 8080], line 36. *)
Definition port (process_env : env) : string :=
  if truthy (getenv (PORT process_env))
  then default "" (PORT process_env)
  else "8080".

(** What the top level leaves when it returns: the seeding that line 54
    started (if the flag is set), the port [app.listen] was called with,
    and the callback of [app.listen].  The seeding and the callback run
    later, in no fixed order with each other or with the requests. *)
Record startup := Startup {
  seeding : option (M unit);
  listening : string;
  on_listening : M unit
}.

(** The requests the three data routes serve. *)
Inductive request :=
| Listing (req_query : gmap string string)
| Lookup (id : string)
| Creation (req_body : gmap string value).

(** The paths of the schema that hold a [Number]. *)
Definition number_paths : list string :=
  [ "id"; "averagePrice"; "totalVolume"; "smallBags"; "largeBags";
    "xLargeBags" ]%string.

Definition dq : string := String (ascii_of_N 34) EmptyString.

(** The model's error for a filter value it cannot cast to a [Number]. *)
Definition cast_failed (k : string) : error :=
  {| code := None;
     message :=
       "Cast to Number failed for value " +:+ dq +:+ "NaN" +:+ dq
       +:+ " (type number) at path " +:+ dq +:+ k +:+ dq
       +:+ " for model " +:+ dq +:+ "Avocado" +:+ dq |}.

(** The casting of a filter against the schema, which the model does
    before it sends anything: [NaN] on a [Number] path is refused. *)
Definition cast_filter (q : gmap string value)
  : completion (gmap string value) :=
  match
    List.find (λ k, bool_decide (q !! k = Some (VNum NaN))) number_paths
  with
  | Some k => Throw (cast_failed k)
  | None => Normal q
  end.

Section Service.

(** The casting and validation the model applies to a value set on a
    required [Number], resp. [String], path (first argument: the path).
    Which values it accepts and how it converts them are the library's
    rules, not the service's: they are left open, and every theorem below
    holds whatever they are. *)
Variable castNumber : string → value → completion Q.
Variable castString : string → value → completion string.

Notation "'let*' x := 'cast' c 'in' k" :=
  (match c with Normal x => k | Throw e => Throw e end)
  (at level 10, x name, c at level 100, k at level 200, only parsing).

(** ** The model [Avocado] *)

(** Validation of an object against [AvocadoSchema], path by path. *)
Definition validate (o : gmap string value) : completion avocado :=
  let* id := cast castNumber "id" (prop o "id") in
  let* date := cast castString "date" (prop o "date") in
  let* region := cast castString "region" (prop o "region") in
  let* averagePrice := cast castNumber "averagePrice" (prop o "averagePrice") in
  let* totalVolume := cast castNumber "totalVolume" (prop o "totalVolume") in
  let* smallBags := cast castNumber "smallBags" (prop o "smallBags") in
  let* largeBags := cast castNumber "largeBags" (prop o "largeBags") in
  let* xLargeBags := cast castNumber "xLargeBags" (prop o "xLargeBags") in
  Normal (Avocado id date region averagePrice totalVolume
            smallBags largeBags xLargeBags).

Fixpoint validate_all (os : list (gmap string value))
  : completion (list avocado) :=
  match os with
  | [] => Normal []
  | o :: os' =>
      let* a := cast validate o in
      let* as' := cast validate_all os' in
      Normal (a :: as')
  end.

(** The error of the unique index on [id]. *)
Definition duplicate_key : error :=
  {| code := Some 11000%Z;
     message := "E11000 duplicate key error collection: avocados index: id_1" |}.

(** [unique: true]: is there a document with this [id] already? *)
Definition taken (n : Q) (s : world) : bool :=
  existsb (λ d, Qeq_bool (id (doc d)) n) (collection s).

(** One insertion at the engine: refused by the unique index, or appended
    under a fresh internal identity.  The index that [unique: true]
    declares is taken as built: the engine is modelled from the moment it
    enforces it. *)
Definition insertOne (a : avocado) : M document :=
  λ s, if taken (id a) s then (Throw duplicate_key, s)
       else
         let d := {| _id := next_oid s; doc := a |} in
         (Normal d,
          {| collection := collection s ++ [d];
             next_oid := N.succ (next_oid s);
             journal := journal s; console := console s |}).

(** Ordered bulk insertion: stops at the first refusal, keeping what went
    in before it. *)
Fixpoint insertEach (l : list avocado) : M (list document) :=
  match l with
  | [] => ret []
  | a :: l' =>
      let* d := await insertOne a in
      let* ds := await insertEach l' in
      ret (d :: ds)
  end.

(** [Avocado.find(q)].  A call that is rejected fails with the error of
    the rejection; one that would be answered fails all the same when the
    filter does not cast. *)
Definition Avocado_find (w : reply) (q : gmap string value)
  : M (list document) :=
  await tell (CFind q);;
  await reach w;;
  let* q' := await lift (cast_filter q) in
  λ s, (Normal (filter (matches q') (collection s)), s).

(** [Avocado.findOne(q)]: the first match in natural order, or [null]. *)
Definition Avocado_findOne (w : reply) (q : gmap string value)
  : M (option document) :=
  await tell (CFindOne q);;
  await reach w;;
  let* q' := await lift (cast_filter q) in
  λ s, (Normal (head (filter (matches q') (collection s))), s).

(** [new Avocado(o).save()] *)
Definition Avocado_save (w : reply) (o : gmap string value) : M document :=
  await tell (CSave o);;
  let* a := await lift (validate o) in
  await reach w;;
  insertOne a.

(** [Avocado.deleteMany()] *)
Definition Avocado_deleteMany (w : reply) : M unit :=
  await tell CDeleteMany;;
  await reach w;;
  λ s, (Normal tt,
        {| collection := []; next_oid := next_oid s;
           journal := journal s; console := console s |}).

(** [Avocado.insertMany(os)] *)
Definition Avocado_insertMany (w : reply) (os : list (gmap string value))
  : M (list document) :=
  await tell (CInsertMany os);;
  let* l := await lift (validate_all os) in
  await reach w;;
  insertEach l.

(** ** The service *)

(** [seedDatabase], lines 45-53; [avocadoSalesData] is the content of
    [./data/avocado-sales.json]. *)
Definition seedDatabase (avocadoSalesData : list (gmap string value))
    (w1 w2 : reply) : M unit :=
  try_catch
    (await Avocado_deleteMany w1;;
     await Avocado_insertMany w2 avocadoSalesData;;
     console_log "Database seeded successfully!")
    (λ err, console_error ("Failed to seed database: " +:+ message err)).

(** [app.get("/avocadoSalesData", ...)], lines 68-85 *)
Definition get_avocadoSalesData (w : reply) (req_query : gmap string string)
  : M response :=
  let date := param req_query "date" in
  let region := param req_query "region" in
  let query : gmap string value := ∅ in
  let query := if truthy date then <["date" := date]> query else query in
  let query := if truthy region then <["region" := region]> query else query in
  try_catch
    (let* avocados := await Avocado_find w query in
     if (0 <? length avocados)%nat
     then ret (Response 200 (Records avocados))
     else ret (Response 404
                 (Failure "No avocado sales data found for the given filters"
                    None)))
    (λ err,
       ret (Response 500
              (Failure "Failed to retrieve data" (Some (message err))))).

(** [app.get("/avocadoSalesData/:id", ...)], lines 88-101; [id] is
    [req.params.id]. *)
Definition get_avocadoSalesData_id (w : reply) (id : string) : M response :=
  try_catch
    (let* avocado := await Avocado_findOne w {[ "id" := VNum (Number id) ]} in
     match avocado with
     | Some found => ret (Response 200 (Single found))
     | None =>
         ret (Response 404
                (Failure ("No avocado sales data found for ID: " +:+ id) None))
     end)
    (λ err,
       ret (Response 500
              (Failure "Failed to retrieve data" (Some (message err))))).

(** [app.post("/avocadoSalesData", ...)], lines 104-133 *)
Definition post_avocadoSalesData (w : reply) (req_body : gmap string value)
  : M response :=
  let id := prop req_body "id" in
  let date := prop req_body "date" in
  let region := prop req_body "region" in
  let averagePrice := prop req_body "averagePrice" in
  let totalVolume := prop req_body "totalVolume" in
  let smallBags := prop req_body "smallBags" in
  let largeBags := prop req_body "largeBags" in
  let xLargeBags := prop req_body "xLargeBags" in
  if negb (truthy id) || negb (truthy date) || negb (truthy region)
     || negb (truthy averagePrice) || negb (truthy totalVolume)
     || negb (truthy smallBags) || negb (truthy largeBags)
     || negb (truthy xLargeBags)
  then ret (Response 400 (Failure "All fields are required" None))
  else
    try_catch
      (let newAvocado : gmap string value :=
         {[ "id" := id; "date" := date; "region" := region;
            "averagePrice" := averagePrice; "totalVolume" := totalVolume;
            "smallBags" := smallBags; "largeBags" := largeBags;
            "xLargeBags" := xLargeBags ]} in
       let* savedAvocado := await Avocado_save w newAvocado in
       ret (Response 201 (Single savedAvocado)))
      (λ err,
         if decide (code err = Some 11000%Z)
         then ret (Response 409
                     (Failure
                        "Duplicate ID: An entry with this ID already exists"
                        None))
         else ret (Response 400
                     (Failure "Failed to create avocado sale entry"
                        (Some (message err))))).

(** The top level of [server.js], lines 43-55 and 136-138.  With the flag
    set it calls [seedDatabase()] without awaiting it, and in every case
    it goes on to [app.listen(port, callback)]: when it returns, the
    seeding and the callback are still to run. *)
Definition main (process_env : env)
    (avocadoSalesData : list (gmap string value)) (w1 w2 : reply)
  : startup :=
  {| seeding :=
       if truthy (getenv (RESET_DB process_env))
       then Some (seedDatabase avocadoSalesData w1 w2)
       else None;
     listening := port process_env;
     on_listening :=
       console_log
         ("Server running on http://localhost:" +:+ port process_env) |}.

(** One request to its handler. *)
Definition handle (w : reply) (r : request) : M response :=
  match r with
  | Listing req_query => get_avocadoSalesData w req_query
  | Lookup id => get_avocadoSalesData_id w id
  | Creation req_body => post_avocadoSalesData w req_body
  end.

(** The world after a sequence of requests, each with the reply its store
    call gets. *)
Fixpoint serve (rs : list (reply * request)) (s : world) : world :=
  match rs with
  | [] => s
  | (w, r) :: rs' => serve rs' (snd (handle w r s))
  end.

End Service.

(** ** Names for the parts of the handlers the properties speak of *)

(** The filter the list handler builds from [req.query] (lines 69-73). *)
Definition query_of (req_query : gmap string string) : gmap string value :=
  let date := param req_query "date" in
  let region := param req_query "region" in
  let query : gmap string value := ∅ in
  let query := if truthy date then <["date" := date]> query else query in
  if truthy region then <["region" := region]> query else query.

(** The object the create handler passes to [new Avocado] (lines 105 and
    113-122). *)
Definition picked (req_body : gmap string value) : gmap string value :=
  {[ "id" := prop req_body "id"; "date" := prop req_body "date";
     "region" := prop req_body "region";
     "averagePrice" := prop req_body "averagePrice";
     "totalVolume" := prop req_body "totalVolume";
     "smallBags" := prop req_body "smallBags";
     "largeBags" := prop req_body "largeBags";
     "xLargeBags" := prop req_body "xLargeBags" ]}.

(** The fields the create handler tests for presence (line 108). *)
Definition required : list string :=
  [ "id"; "date"; "region"; "averagePrice"; "totalVolume";
    "smallBags"; "largeBags"; "xLargeBags" ]%string.

Definition complete (req_body : gmap string value) : bool :=
  forallb (λ k, truthy (prop req_body k)) required.

(** A field that is omitted, [null], the empty string or 0. *)
Definition lacking (req_body : gmap string value) (k : string) : Prop :=
  req_body !! k = None ∨ req_body !! k = Some VNull
  ∨ req_body !! k = Some (VStr "")
  ∨ ∃ q, req_body !! k = Some (VNum (Num q)) ∧ (q == 0)%Q.

(** The answers of the create handler (lines 109, 128 and 130). *)
Definition all_fields_required : response :=
  Response 400 (Failure "All fields are required" None).

Definition duplicate_id : response :=
  Response 409
    (Failure "Duplicate ID: An entry with this ID already exists" None).

Definition creation_failed (err : error) : response :=
  Response 400
    (Failure "Failed to create avocado sale entry" (Some (message err))).

(** What the list handler answers once it has the matching documents
    (lines 77-81). *)
Definition listing (avocados : list document) : response :=
  if (0 <? length avocados)%nat
  then Response 200 (Records avocados)
  else Response 404
         (Failure "No avocado sales data found for the given filters" None).

(** The answer of both read handlers to a store error (lines 83 and 99). *)
Definition retrieval_failed (err : error) : response :=
  Response 500 (Failure "Failed to retrieve data" (Some (message err))).

(** The value a request gives a parameter, when it gives one that is not
    empty. *)
Definition given (q : gmap string string) (k : string) : option string :=
  match q !! k with
  | Some (String c r) => Some (String c r)
  | _ => None
  end.

(** Selection by date and region, each a criterion only when there is a
    value for it. *)
Definition selects (date' region' : option string) (d : document) : Prop :=
  from_option (λ x, date (doc d) = x) True date'
  ∧ from_option (λ x, region (doc d) = x) True region'.

#[global] Instance selects_dec date' region' d :
  Decision (selects date' region' d).
Proof. unfold selects. destruct date', region'; simpl; apply _. Defined.

(** The list answer as the specification words it: every parameter the
    request supplies is a criterion, with the value it was supplied with. *)
Definition listing_as_specified (q : gmap string string) (s : world)
  : response :=
  listing (filter (selects (q !! "date") (q !! "region")) (collection s)).

(** Internal identities are handed out in increasing order: every stored
    document has one below the next. *)
Definition fresh_ids (s : world) : Prop :=
  Forall (λ d, (_id d < next_oid s)%N) (collection s).

(** The world after [deleteMany()] has answered and [insertMany] has been
    called (lines 47-48). *)
Definition cleared (data : list (gmap string value)) (s : world) : world :=
  called (CInsertMany data)
    {| collection := []; next_oid := next_oid s;
       journal := journal s ++ [CDeleteMany]; console := console s |}.

(** ** A concrete schema casting, for running the model

    It accepts a value of the declared type and nothing else. *)
Definition typedNumber (p : string) (v : value) : completion Q :=
  match v with
  | VNum (Num q) => Normal q
  | _ => Throw {| code := None;
                  message := "Cast to Number failed at path " +:+ p |}
  end.

Definition typedString (p : string) (v : value) : completion string :=
  match v with
  | VStr s => Normal s
  | _ => Throw {| code := None;
                  message := "Cast to String failed at path " +:+ p |}
  end.

(** The record of the specification's example. *)
Definition usa_2020 : avocado :=
  {| id := 1; date := "2020-01-01"; region := "USA";
     averagePrice := 15 # 10; totalVolume := 100; smallBags := 50;
     largeBags := 30; xLargeBags := 20 |}.

Definition usa_2020_body : gmap string value :=
  {[ "id" := VNum (Num 1); "date" := VStr "2020-01-01";
     "region" := VStr "USA"; "averagePrice" := VNum (Num (15 # 10));
     "totalVolume" := VNum (Num 100); "smallBags" := VNum (Num 50);
     "largeBags" := VNum (Num 30); "xLargeBags" := VNum (Num 20) ]}.

Definition empty_world : world := World [] 0 [] [].

Definition one_record : world := World [Document 0 usa_2020] 1 [] [].

(** The world after the example record was created in the empty one. *)
Definition after_create : world :=
  {| collection := [Document 0 usa_2020]; next_oid := 1;
     journal := [CSave (picked usa_2020_body)]; console := [] |}.

(** A collection with an older record, id 7. *)
Definition older_record : world :=
  World
    [Document 0
       {| id := 7; date := "2019-06-02"; region := "Boston";
          averagePrice := 133 # 100; totalVolume := 80; smallBags := 40;
          largeBags := 30; xLargeBags := 10 |}]
    1 [] [].

(** ** Names for the further properties *)

(** The values [ToBoolean] sends to [false]. *)
Definition falsy (v : value) : Prop :=
  v = VUndefined ∨ v = VNull ∨ v = VBool false ∨ v = VNum NaN
  ∨ v = VStr "" ∨ ∃ q, v = VNum (Num q) ∧ (q == 0)%Q.

(** A path segment denotes a number. *)
Definition denotes (p : string) (q : Q) : Prop :=
  ∃ q', Number p = Num q' ∧ (q' == q)%Q.

(** No two documents of a list have the same [id]: what the unique index
    of line 22 maintains. *)
Fixpoint distinct_ids (l : list document) : Prop :=
  match l with
  | [] => True
  | d :: l' =>
      Forall (λ d', ¬ (id (doc d') == id (doc d))%Q) l' ∧ distinct_ids l'
  end.

Definition unique_ids (s : world) : Prop := distinct_ids (collection s).

(** The seeding failure line (line 51). *)
Definition seed_failure (err : error) : string :=
  "Failed to seed database: " +:+ message err.

(** The example body with another region and with a field the schema
    does not have, and the record the first validates to. *)
Definition boston_body : gmap string value :=
  <["region" := VStr "Boston"]> usa_2020_body.

Definition boston_2020 : avocado :=
  {| id := 1; date := "2020-01-01"; region := "Boston";
     averagePrice := 15 # 10; totalVolume := 100; smallBags := 50;
     largeBags := 30; xLargeBags := 20 |}.

Definition admin_body : gmap string value :=
  <["admin" := VBool true]> usa_2020_body.


(** ** Records held once, datasets and request traces *)

(** A record sits in a list once: no other document of the list has its
    [id]. *)
Definition holds_once (R : document) (l : list document) : Prop :=
  ∃ l1 l2,
    l = l1 ++ R :: l2
    ∧ Forall (λ d, ¬ (id (doc d) == id (doc R))%Q) l1
    ∧ Forall (λ d, ¬ (id (doc d) == id (doc R))%Q) l2.

(** No two records of a dataset have the same [id]. *)
Fixpoint distinct_records (l : list avocado) : Prop :=
  match l with
  | [] => True
  | a :: l' =>
      Forall (λ a', ¬ (id a' == id a)%Q) l' ∧ distinct_records l'
  end.

(** The example body under another id. *)
Definition second_body : gmap string value :=
  <["id" := VNum (Num 2)]> usa_2020_body.

(** Requests that follow the creation of the example record: another
    record is created, a list request is rejected by the store, a segment
    that is no number is looked up. *)
Definition later_requests : list (reply * request) :=
  [ (Answers, Creation second_body);
    (Rejects duplicate_key, Listing ∅);
    (Answers, Lookup "abc") ].

(** * Properties *)

(** ** Filters *)

Lemma equal_Num x n :
  equal (VNum (Num x)) (VNum n) = true ↔ ∃ y, n = Num y ∧ (x == y)%Q.
Proof.
  destruct n as [|b|y]; simpl.
  - split; [done|by intros (y & ? & _)].
  - split; [done|by intros (y & ? & _)].
  - rewrite Qeq_bool_iff. split; [eauto|by intros (? & [= <-] & ?)].
Qed.

Lemma equal_Str x y : equal (VStr x) (VStr y) = true ↔ x = y.
Proof. simpl. apply String.eqb_eq. Qed.

(** The filter [{ id: n }] selects the documents whose [id] is the
    number [n]. *)
Lemma matches_id n d :
  matches {[ "id" := VNum n ]} d ↔ ∃ q, n = Num q ∧ (id (doc d) == q)%Q.
Proof.
  unfold matches. rewrite map_Forall_singleton.
  change (path d "id") with (VNum (Num (id (doc d)))).
  apply equal_Num.
Qed.

Lemma matches_empty d : matches ∅ d.
Proof. apply map_Forall_empty. Qed.

(** No document matches [{ id: NaN }]. *)
Lemma matches_NaN d : ¬ matches {[ "id" := VNum NaN ]} d.
Proof. rewrite matches_id. by intros (q & ? & _). Qed.

Lemma taken_false n s :
  taken n s = false ↔ Forall (λ d, ¬ (id (doc d) == n)%Q) (collection s).
Proof.
  unfold taken. induction (collection s) as [|d l IH]; simpl.
  - split; [constructor|done].
  - by rewrite orb_false_iff, IH, Forall_cons, <- not_true_iff_false,
      Qeq_bool_iff.
Qed.

Lemma taken_true n s :
  taken n s = true ↔ ∃ d, d ∈ collection s ∧ (id (doc d) == n)%Q.
Proof.
  unfold taken. rewrite existsb_exists. setoid_rewrite Qeq_bool_iff.
  by setoid_rewrite list_elem_of_In.
Qed.

(** Looking an [id] up right after a document with it went into a
    collection that had none with it. *)
Lemma lookup_appended q d l :
  Forall (λ d', ¬ (id (doc d') == id (doc d))%Q) l → (q == id (doc d))%Q →
  head (filter (matches {[ "id" := VNum (Num q) ]}) (l ++ [d])) = Some d.
Proof.
  intros Hl Hd. rewrite filter_app.
  assert (filter (matches {[ "id" := VNum (Num q) ]}) l = []) as ->.
  { induction Hl as [|d' l' Hne _ IH]; [done|].
    rewrite filter_cons_False; [done|].
    rewrite matches_id. intros (q' & [= <-] & Hq).
    apply Hne. by rewrite Hq. }
  rewrite filter_cons_True; [done|].
  rewrite matches_id. exists q. split; [done|]. by symmetry.
Qed.

(** The filter of the list handler holds a path exactly when the request
    gives it a non-empty value, and then with that value. *)
Lemma query_of_lookup q k :
  query_of q !! k =
    if decide (k = "date" ∨ k = "region")
    then match q !! k with
         | Some (String c r) => Some (VStr (String c r))
         | _ => None
         end
    else None.
Proof.
  unfold query_of, param.
  destruct (q !! "date") as [[|c1 r1]|] eqn:E1;
    destruct (q !! "region") as [[|c2 r2]|] eqn:E2; simpl;
    case_decide as Hk;
    try (destruct Hk as [-> | ->]); simplify_map_eq; try done;
    rewrite ?lookup_insert_ne, ?lookup_empty by naive_solver;
    try done.
Qed.

Lemma map_Forall_empty_True (P : string → value → Prop) :
  map_Forall P (∅ : gmap string value) ↔ True.
Proof. split; [done|]. intros _. apply map_Forall_empty. Qed.

Lemma matches_date_region x y d :
  matches (<["region" := VStr y]> (<["date" := VStr x]> ∅)) d
  ↔ date (doc d) = x ∧ region (doc d) = y.
Proof.
  unfold matches. rewrite map_Forall_insert by done.
  rewrite map_Forall_insert by done.
  change (path d "region") with (VStr (region (doc d))).
  change (path d "date") with (VStr (date (doc d))).
  rewrite !equal_Str, map_Forall_empty_True. tauto.
Qed.

Lemma matches_date x d :
  matches (<["date" := VStr x]> ∅) d ↔ date (doc d) = x.
Proof.
  unfold matches. rewrite map_Forall_insert by done.
  change (path d "date") with (VStr (date (doc d))).
  rewrite equal_Str, map_Forall_empty_True. tauto.
Qed.

Lemma matches_region y d :
  matches (<["region" := VStr y]> ∅) d ↔ region (doc d) = y.
Proof.
  unfold matches. rewrite map_Forall_insert by done.
  change (path d "region") with (VStr (region (doc d))).
  rewrite equal_Str, map_Forall_empty_True. tauto.
Qed.

(** The filter the list handler builds selects by the parameters that
    were given a non-empty value, and by nothing else. *)
Lemma matches_query_of q d :
  matches (query_of q) d ↔ selects (given q "date") (given q "region") d.
Proof.
  unfold query_of, given, param, selects.
  destruct (q !! "date") as [[|c1 r1]|];
    destruct (q !! "region") as [[|c2 r2]|]; simpl;
    rewrite ?matches_date_region, ?matches_date, ?matches_region;
    pose proof (matches_empty d); tauto.
Qed.

Lemma filter_query_of q (l : list document) :
  filter (matches (query_of q)) l
  = filter (selects (given q "date") (given q "region")) l.
Proof. apply list_filter_iff. intros d. apply matches_query_of. Qed.

(** ** The read handlers, unfolded *)

(** The filter of the list handler casts: it holds strings, on the two
    [String] paths. *)
Lemma query_of_number_path q k :
  k ∈ number_paths → query_of q !! k = None.
Proof.
  intros Hk. rewrite query_of_lookup. apply decide_False.
  unfold number_paths in Hk.
  intros [->| ->];
    repeat (apply elem_of_cons in Hk as [Hk|Hk]; [discriminate|]);
    by apply elem_of_nil in Hk.
Qed.

Lemma cast_filter_query_of q : cast_filter (query_of q) = Normal (query_of q).
Proof.
  unfold cast_filter. cbn [List.find number_paths].
  rewrite !query_of_number_path by (unfold number_paths; repeat constructor).
  reflexivity.
Qed.

(** The filter [{ id: n }] casts unless [n] is [NaN]. *)
Lemma cast_filter_id n :
  cast_filter {[ "id" := VNum n ]}
  = match n with
    | NaN => Throw (cast_failed "id")
    | _ => Normal {[ "id" := VNum n ]}
    end.
Proof. by destruct n. Qed.

Lemma list_answered q s :
  get_avocadoSalesData Answers q s
  = (Normal (listing (filter (matches (query_of q)) (collection s))),
     called (CFind (query_of q)) s).
Proof.
  unfold get_avocadoSalesData, try_catch, bind, Avocado_find, listing.
  simpl. fold (query_of q). unfold lift. rewrite cast_filter_query_of.
  simpl. by destruct (0 <? length _)%nat.
Qed.

Lemma list_rejected e q s :
  get_avocadoSalesData (Rejects e) q s
  = (Normal (retrieval_failed e), called (CFind (query_of q)) s).
Proof. reflexivity. Qed.

(** The lookup that would be answered: refused for [NaN], else the first
    match or the 404. *)
Lemma by_id_answered p s :
  get_avocadoSalesData_id Answers p s
  = (Normal
       match Number p with
       | NaN => retrieval_failed (cast_failed "id")
       | _ =>
           match head (filter (matches {[ "id" := VNum (Number p) ]})
                         (collection s)) with
           | Some found => Response 200 (Single found)
           | None =>
               Response 404
                 (Failure ("No avocado sales data found for ID: " +:+ p)
                    None)
           end
       end,
     called (CFindOne {[ "id" := VNum (Number p) ]}) s).
Proof.
  unfold get_avocadoSalesData_id, try_catch, bind, Avocado_findOne, lift.
  simpl. rewrite cast_filter_id.
  destruct (Number p); simpl; [done|by destruct (head _)..].
Qed.

Lemma by_id_rejected e p s :
  get_avocadoSalesData_id (Rejects e) p s
  = (Normal (retrieval_failed e),
     called (CFindOne {[ "id" := VNum (Number p) ]}) s).
Proof. reflexivity. Qed.

(** ** The create handler *)

Lemma lacking_falsy body k : lacking body k → truthy (prop body k) = false.
Proof.
  unfold prop. intros [-> | [-> | [-> | (q & -> & Hq)]]]; try done.
  simpl. by rewrite (Qeq_eq_bool _ _ Hq).
Qed.

Section Create.

Variable castNumber : string → value → completion Q.
Variable castString : string → value → completion string.

#[local] Abbreviation post := (post_avocadoSalesData castNumber castString).
#[local] Abbreviation save := (Avocado_save castNumber castString).
#[local] Abbreviation check := (validate castNumber castString).

(** The create handler: the presence test, then the [try] block. *)
Lemma post_unfold w body s :
  post w body s =
    if complete body
    then match save w (picked body) s with
         | (Normal saved, s') => (Normal (Response 201 (Single saved)), s')
         | (Throw err, s') =>
             (Normal (if decide (code err = Some 11000%Z)
                      then duplicate_id else creation_failed err), s')
         end
    else (Normal all_fields_required, s).
Proof.
  unfold post_avocadoSalesData, complete, required. cbn [forallb].
  destruct (truthy (prop body "id")); [|reflexivity].
  destruct (truthy (prop body "date")); [|reflexivity].
  destruct (truthy (prop body "region")); [|reflexivity].
  destruct (truthy (prop body "averagePrice")); [|reflexivity].
  destruct (truthy (prop body "totalVolume")); [|reflexivity].
  destruct (truthy (prop body "smallBags")); [|reflexivity].
  destruct (truthy (prop body "largeBags")); [|reflexivity].
  destruct (truthy (prop body "xLargeBags")); [|reflexivity].
  cbn [negb orb andb]. unfold try_catch, bind. fold (picked body).
  destruct (save w (picked body) s) as [[saved|err] s']; [reflexivity|].
  by case_decide.
Qed.

Lemma save_unfold w o s :
  save w o s =
    match check o, w with
    | Throw e, _ => (Throw e, called (CSave o) s)
    | Normal a, Rejects e => (Throw e, called (CSave o) s)
    | Normal a, Answers => insertOne a (called (CSave o) s)
    end.
Proof.
  unfold Avocado_save, bind, tell, lift, reach.
  destruct (check o); [|reflexivity]. by destruct w.
Qed.

Lemma insertOne_Normal a s d s' :
  insertOne a s = (Normal d, s') →
  taken (id a) s = false ∧ d = {| _id := next_oid s; doc := a |}
  ∧ s' = {| collection := collection s ++ [d];
            next_oid := N.succ (next_oid s);
            journal := journal s; console := console s |}.
Proof.
  unfold insertOne. destruct (taken (id a) s); [done|].
  intros [= <- <-]. done.
Qed.

Lemma insertOne_Throw a s e s' :
  insertOne a s = (Throw e, s') →
  taken (id a) s = true ∧ e = duplicate_key ∧ s' = s.
Proof.
  unfold insertOne. destruct (taken (id a) s); [|done].
  intros [= <- <-]. done.
Qed.

(** A failed [save] leaves the collection as it was. *)
Lemma save_Throw w o s e s' :
  save w o s = (Throw e, s') → s' = called (CSave o) s.
Proof.
  rewrite save_unfold. destruct (check o) as [a|e1]; [destruct w|].
  - by intros (_ & _ & ->)%insertOne_Throw.
  - by intros [= _ <-].
  - by intros [= _ <-].
Qed.

(** A [save] that returns has appended the document it returns, whose
    [id] no stored document had. *)
Lemma save_Normal w o s d s' :
  save w o s = (Normal d, s') →
  w = Answers ∧ check o = Normal (doc d)
  ∧ Forall (λ d', ¬ (id (doc d') == id (doc d))%Q) (collection s)
  ∧ _id d = next_oid s
  ∧ collection s' = collection s ++ [d]
  ∧ next_oid s' = N.succ (next_oid s).
Proof.
  rewrite save_unfold. destruct (check o) as [a|e1]; [destruct w|]; try done.
  intros (Ht & -> & ->)%insertOne_Normal. simpl.
  apply taken_false in Ht. done.
Qed.

(** A 201 is only ever sent for a [save] that returned. *)
Lemma post_201 w body s R s' :
  post w body s = (Normal (Response 201 (Single R)), s') →
  save w (picked body) s = (Normal R, s').
Proof.
  rewrite post_unfold. destruct (complete body); [|done].
  destruct (save w (picked body) s) as [[saved|err] s1].
  - by intros [= -> ->].
  - by case_decide.
Qed.

Lemma complete_true body :
  complete body = true ↔ ∀ k, k ∈ required → truthy (prop body k) = true.
Proof.
  unfold complete. rewrite forallb_forall.
  by setoid_rewrite list_elem_of_In.
Qed.

Lemma complete_false body k :
  k ∈ required → truthy (prop body k) = false → complete body = false.
Proof.
  intros Hk Hf. destruct (complete body) eqn:E; [|done].
  rewrite complete_true in E. rewrite (E k Hk) in Hf. done.
Qed.

(** The presence test comes first: a body it refuses is answered without a
    call on the model, however a call would have gone. *)
Lemma post_incomplete w body s :
  complete body = false → post w body s = (Normal all_fields_required, s).
Proof. intros H. by rewrite post_unfold, H. Qed.

(** The requests that follow leave a record where it was stored, and
    give its [id] to no other document. *)
Lemma holds_once_lookup R l q :
  holds_once R l → (q == id (doc R))%Q →
  head (filter (matches {[ "id" := VNum (Num q) ]}) l) = Some R.
Proof.
  intros (l1 & l2 & -> & H1 & H2) Hq. rewrite filter_app.
  assert (filter (matches {[ "id" := VNum (Num q) ]}) l1 = []) as ->.
  { induction H1 as [|d l Hne _ IH]; [done|].
    rewrite filter_cons_False; [done|].
    rewrite matches_id. intros (q' & [= <-] & Hd).
    apply Hne. by rewrite Hd. }
  rewrite filter_cons_True; [done|].
  rewrite matches_id. exists q. split; [done|]. by symmetry.
Qed.

Lemma handle_keeps R w r s :
  holds_once R (collection s) →
  holds_once R (collection (snd (handle castNumber castString w r s))).
Proof.
  intros Hr. destruct r as [q|p|body]; simpl.
  - destruct w; [by rewrite list_answered|by rewrite list_rejected].
  - destruct w; [by rewrite by_id_answered|by rewrite by_id_rejected].
  - rewrite post_unfold. destruct (complete body); [|done].
    destruct (save w (picked body) s) as [[saved|err] s1] eqn:Es.
    + apply save_Normal in Es as (_ & _ & Hnew & _ & Hc & _). simpl.
      rewrite Hc. destruct Hr as (l1 & l2 & Hl & H1 & H2).
      exists l1, (l2 ++ [saved]). split; [|split; [done|]].
      * by rewrite Hl, <- app_assoc.
      * apply Forall_app. split; [done|]. apply Forall_singleton.
        rewrite Hl in Hnew. apply Forall_app in Hnew as [_ Hnew].
        apply Forall_cons in Hnew as [Hnew _].
        intros H. apply Hnew. by symmetry.
    + apply save_Throw in Es as ->. done.
Qed.

Lemma serve_keeps R rs : ∀ s,
  holds_once R (collection s) →
  holds_once R (collection (serve castNumber castString rs s)).
Proof.
  induction rs as [|[w r] rs IH]; intros s Hs; simpl; [done|].
  by apply IH, handle_keeps.
Qed.

(** C1: a record R created by POST /avocadoSalesData (response 201) is
    returned, with status 200 and exactly as it was stored, by every later
    GET /avocadoSalesData/:id whose path segment denotes R's id, whatever
    requests were served in between, when the store answers the lookup. *)
Theorem created_record_is_retrievable w body s R s' rs p q :
  post w body s = (Normal (Response 201 (Single R)), s') →
  Number p = Num q → (q == id (doc R))%Q →
  get_avocadoSalesData_id Answers p (serve castNumber castString rs s')
  = (Normal (Response 200 (Single R)),
     called (CFindOne {[ "id" := VNum (Num q) ]})
       (serve castNumber castString rs s')).
Proof.
  intros (_ & _ & Hnew & _ & Hc & _)%post_201%save_Normal Hp Hq.
  assert (holds_once R (collection s')) as Hs'.
  { exists (collection s), []. by rewrite Hc. }
  rewrite by_id_answered, Hp.
  by rewrite (holds_once_lookup _ _ _ (serve_keeps R rs s' Hs') Hq).
Qed.

(** C2: a POST /avocadoSalesData whose body has one of the required fields
    omitted, null, empty or 0 is answered 400, and the world is left as it
    was: nothing is stored. *)
Theorem missing_field_is_rejected w body s k :
  k ∈ required → lacking body k →
  post w body s
  = (Normal (Response 400 (Failure "All fields are required" None)), s).
Proof.
  intros Hk Hl. apply post_incomplete.
  apply (complete_false _ k Hk), lacking_falsy, Hl.
Qed.

(** C9: the [id] is under the same presence test: a body whose [id] is 0,
    null or omitted is answered 400 however a store call would have gone,
    with no call on the model and nothing stored; and that is the handler's
    doing, for the store itself takes a record with id 0 and GET
    /avocadoSalesData/0 then returns it. *)
Theorem id_is_tested_like_the_other_fields body :
  body !! "id" = None ∨ body !! "id" = Some VNull
  ∨ (∃ q, body !! "id" = Some (VNum (Num q)) ∧ (q == 0)%Q) →
  (∀ w s,
     post w body s
     = (Normal (Response 400 (Failure "All fields are required" None)), s)
     ∧ journal (snd (post w body s)) = journal s
     ∧ collection (snd (post w body s)) = collection s)
  ∧ (∀ a s, (id a == 0)%Q → taken (id a) s = false →
       ∃ d s',
         insertOne a s = (Normal d, s') ∧ doc d = a
         ∧ fst (get_avocadoSalesData_id Answers "0" s')
           = Normal (Response 200 (Single d))).
Proof.
  intros Hid. split.
  - intros w s.
    assert (post w body s = (Normal all_fields_required, s)) as ->; [|done].
    apply post_incomplete, (complete_false _ "id").
    + unfold required. constructor.
    + apply lacking_falsy. unfold lacking. tauto.
  - intros a s Ha Ht. unfold insertOne. rewrite Ht.
    eexists _, _. split; [done|]. split; [done|].
    rewrite by_id_answered. simpl collection.
    change (Number "0") with (Num 0). cbv iota.
    rewrite lookup_appended; [done| |].
    + simpl. by apply taken_false.
    + simpl. by rewrite Ha.
Qed.

(** C3: a POST /avocadoSalesData that passes the presence test is answered
    from the outcome of [save]: 201 with the stored record when it returns,
    409 with the duplicate-id message when it fails with code 11000, and
    400 with the generic message and the error's text when it fails with
    anything else; and code 11000 is what [save] fails with when a stored
    record has the same id. *)
Theorem create_outcomes w body s :
  (∀ k, k ∈ required → truthy (prop body k) = true) →
  (∀ saved s', save w (picked body) s = (Normal saved, s') →
     post w body s = (Normal (Response 201 (Single saved)), s')
     ∧ saved ∈ collection s')
  ∧ (∀ err s', save w (picked body) s = (Throw err, s') →
       code err = Some 11000%Z →
       post w body s
       = (Normal
            (Response 409
               (Failure "Duplicate ID: An entry with this ID already exists"
                  None)), s')
       ∧ collection s' = collection s)
  ∧ (∀ err s', save w (picked body) s = (Throw err, s') →
       code err ≠ Some 11000%Z →
       post w body s
       = (Normal
            (Response 400
               (Failure "Failed to create avocado sale entry"
                  (Some (message err)))), s')
       ∧ collection s' = collection s)
  ∧ (∀ a d, check (picked body) = Normal a → w = Answers →
       d ∈ collection s → (id (doc d) == id a)%Q →
       save w (picked body) s
       = (Throw duplicate_key, called (CSave (picked body)) s)).
Proof.
  intros Hc%complete_true. split; [|split; [|split]].
  - intros saved s' Hs. split.
    + by rewrite post_unfold, Hc, Hs.
    + apply save_Normal in Hs as (_ & _ & _ & _ & -> & _).
      apply elem_of_app. right. constructor.
  - intros err s' Hs Hcode. split.
    + rewrite post_unfold, Hc, Hs. by rewrite decide_True.
    + by apply save_Throw in Hs as ->.
  - intros err s' Hs Hcode. split.
    + rewrite post_unfold, Hc, Hs. by rewrite decide_False.
    + by apply save_Throw in Hs as ->.
  - intros a d Ha -> Hd Hid. rewrite save_unfold, Ha. unfold insertOne.
    assert (taken (id a) (called (CSave (picked body)) s) = true) as ->; [|done].
    apply taken_true. exists d. done.
Qed.

(** The create handler never completes by throwing either. *)
Lemma post_never_throws w body s : ∃ r, fst (post w body s) = Normal r.
Proof.
  rewrite post_unfold. destruct (complete body); [|simpl; eauto].
  destruct (save w (picked body) s) as [[saved|err] s']; simpl; eauto.
Qed.

Lemma post_fresh w body s : fresh_ids s → fresh_ids (snd (post w body s)).
Proof.
  intros Hf. rewrite post_unfold. destruct (complete body); [|done].
  rewrite save_unfold. destruct (check (picked body)) as [a|e]; [|done].
  destruct w; [|done]. unfold insertOne.
  destruct (taken _ _); [done|]. unfold fresh_ids in *. simpl.
  apply Forall_app. split.
  - eapply Forall_impl; [exact Hf|]. simpl. intros; lia.
  - repeat constructor. simpl. lia.
Qed.

End Create.

(** ** The list handler *)

(** C4: GET /avocadoSalesData answers 200 with the documents matching its
    filter when there are some, and 404 with an error message when there
    are none (so also for an empty collection and no parameters); no run
    answers 200 with an empty array. *)
Theorem list_is_200_or_404 (q : gmap string string) (s : world) :
  let found := filter (matches (query_of q)) (collection s) in
  (found ≠ [] →
     fst (get_avocadoSalesData Answers q s) = Normal (Response 200 (Records found)))
  ∧ (found = [] →
       fst (get_avocadoSalesData Answers q s)
       = Normal
           (Response 404
              (Failure "No avocado sales data found for the given filters"
                 None)))
  ∧ (collection s = [] →
       fst (get_avocadoSalesData Answers ∅ s)
       = Normal
           (Response 404
              (Failure "No avocado sales data found for the given filters"
                 None)))
  ∧ (∀ w, fst (get_avocadoSalesData w q s)
          ≠ Normal (Response 200 (Records []))).
Proof.
  intros found. split; [|split; [|split]].
  - intros Hne. rewrite list_answered. fold found. unfold listing.
    by destruct found.
  - intros He. rewrite list_answered. fold found. by rewrite He.
  - intros He. rewrite list_answered, He. done.
  - intros [|e].
    + rewrite list_answered. fold found. unfold listing. by destruct found.
    + by rewrite list_rejected.
Qed.

(** C5, amended: the filter GET /avocadoSalesData passes to the store holds
    exactly the parameters among [date] and [region] that the request gives
    a non-empty value; a parameter that is absent imposes no constraint, and
    with both given the documents returned are those whose date and region
    both equal the given ones. *)
Theorem list_filters_by_given_parameters (q : gmap string string) (s : world) :
  journal (snd (get_avocadoSalesData Answers q s))
  = journal s ++ [CFind (query_of q)]
  ∧ (∀ k v, query_of q !! k = Some v
            ↔ (k = "date" ∨ k = "region")
              ∧ ∃ x, given q k = Some x ∧ v = VStr x)
  ∧ fst (get_avocadoSalesData Answers q s)
    = Normal
        (listing
           (filter (selects (given q "date") (given q "region"))
              (collection s)))
  ∧ (∀ dt rg, given q "date" = Some dt → given q "region" = Some rg →
       ∀ d, d ∈ filter (matches (query_of q)) (collection s)
            ↔ d ∈ collection s ∧ date (doc d) = dt ∧ region (doc d) = rg).
Proof.
  split; [|split; [|split]].
  - by rewrite list_answered.
  - intros k v. rewrite query_of_lookup. unfold given.
    case_decide as Hk; [|split; [done|by intros [? _]]].
    destruct (q !! k) as [[|c r]|].
    + split; [done|by intros (_ & x & ? & _)].
    + split; [intros [= <-]; eauto|by intros (_ & x & [= <-] & ->)].
    + split; [done|by intros (_ & x & ? & _)].
  - by rewrite list_answered, filter_query_of.
  - intros dt rg Hd Hr d.
    rewrite list_elem_of_filter, matches_query_of, Hd, Hr.
    unfold selects. simpl. tauto.
Qed.

(** C5, as stated, fails: a request that supplies [date] as the empty
    string and [region] as USA is answered with the USA record, whose date
    is not empty, and its filter has no [date]. *)
Lemma empty_date_is_not_a_criterion :
  let q : gmap string string := {[ "date" := ""; "region" := "USA" ]} in
  q !! "date" = Some ""
  ∧ query_of q !! "date" = None
  ∧ fst (get_avocadoSalesData Answers q one_record)
    = Normal (Response 200 (Records [Document 0 usa_2020]))
  ∧ listing_as_specified q one_record
    = Response 404
        (Failure "No avocado sales data found for the given filters" None)
  ∧ fst (get_avocadoSalesData Answers q one_record)
    ≠ Normal (listing_as_specified q one_record).
Proof. vm_compute. repeat split; congruence. Qed.

(** C10: in GET /avocadoSalesData a parameter supplied as the empty string
    is treated as an absent one: the filter holds no criterion for it, and
    the request runs exactly as the request without it. *)
Theorem empty_parameter_is_no_criterion
    (w : reply) (q : gmap string string) (s : world) (k : string) :
  query_of (<[k := ""]> q) = query_of (delete k q)
  ∧ query_of (<[k := ""]> q) !! k = None
  ∧ get_avocadoSalesData w (<[k := ""]> q) s
    = get_avocadoSalesData w (delete k q) s.
Proof.
  assert (query_of (<[k := ""]> q) = query_of (delete k q)) as E.
  { unfold query_of, param.
    destruct (decide (k = "date")) as [->|Hd];
      [|destruct (decide (k = "region")) as [->|Hr]].
    - rewrite lookup_insert_eq, lookup_delete_eq.
      by rewrite lookup_insert_ne, lookup_delete_ne.
    - rewrite lookup_insert_eq, lookup_delete_eq.
      by rewrite lookup_insert_ne, lookup_delete_ne.
    - by rewrite !lookup_insert_ne, !lookup_delete_ne. }
  split; [done|split].
  - rewrite query_of_lookup. case_decide; [|done].
    by rewrite lookup_insert_eq.
  - destruct w as [|e]; [by rewrite !list_answered, E|by rewrite !list_rejected, E].
Qed.

(** ** The handler for one record *)

(** C6, amended: when the [:id] segment of GET /avocadoSalesData/:id
    does not parse as a number, the value looked up is NaN: it matches no
    document and the model refuses to cast it, so the lookup fails, the
    handler catches the failure and the answer is 500 with the
    retrieval-failure message and the error's text, in every run: never
    404, never 400. *)
Theorem unparsable_id_is_refused (w : reply) (p : string) (s : world) :
  Number p = NaN →
  (∀ d, d ∈ collection s → ¬ matches {[ "id" := VNum (Number p) ]} d)
  ∧ (∃ e, get_avocadoSalesData_id w p s
          = (Normal
               (Response 500
                  (Failure "Failed to retrieve data" (Some (message e)))),
             called (CFindOne {[ "id" := VNum NaN ]}) s))
  ∧ fst (get_avocadoSalesData_id Answers p s)
    = Normal
        (Response 500
           (Failure "Failed to retrieve data"
              (Some (message (cast_failed "id"))))).
Proof.
  intros Hp. split; [|split].
  - intros d _. rewrite Hp. apply matches_NaN.
  - destruct w as [|e].
    + exists (cast_failed "id"). by rewrite by_id_answered, Hp.
    + exists e. by rewrite by_id_rejected, Hp.
  - by rewrite by_id_answered, Hp.
Qed.

(** C6, as stated, fails: the segment abc is no number, and the answer is
    500, not the 404 that quotes the segment. *)
Lemma unparsable_id_is_not_404 :
  Number "abc" = NaN
  ∧ fst (get_avocadoSalesData_id Answers "abc" one_record)
    = Normal
        (Response 500
           (Failure "Failed to retrieve data"
              (Some (message (cast_failed "id")))))
  ∧ fst (get_avocadoSalesData_id Answers "abc" one_record)
    ≠ Normal
        (Response 404
           (Failure "No avocado sales data found for ID: abc" None)).
Proof. vm_compute. repeat split; congruence. Qed.

(** C7: in GET /avocadoSalesData and GET /avocadoSalesData/:id a failure of
    the store call is caught and answered 500, with an [error] field and
    the store's error text as [details]; neither handler ever completes by
    throwing. *)
Theorem store_failure_is_500
    (q : gmap string string) (p : string) (s : world) :
  (∀ e, fst (get_avocadoSalesData (Rejects e) q s)
        = Normal
            (Response 500
               (Failure "Failed to retrieve data" (Some (message e)))))
  ∧ (∀ e, fst (get_avocadoSalesData_id (Rejects e) p s)
          = Normal
              (Response 500
                 (Failure "Failed to retrieve data" (Some (message e)))))
  ∧ (∀ w, ∃ r, fst (get_avocadoSalesData w q s) = Normal r)
  ∧ (∀ w, ∃ r, fst (get_avocadoSalesData_id w p s) = Normal r).
Proof.
  split; [|split; [|split]].
  - intros e. by rewrite list_rejected.
  - intros e. by rewrite by_id_rejected.
  - intros [|e]; [rewrite list_answered|rewrite list_rejected]; eauto.
  - intros [|e]; [rewrite by_id_answered|rewrite by_id_rejected]; eauto.
Qed.

Section Seed.

Variable castNumber : string → value → completion Q.
Variable castString : string → value → completion string.

#[local] Abbreviation seed := (seedDatabase castNumber castString).
#[local] Abbreviation check_all := (validate_all castNumber castString).

Lemma insertEach_Normal l : ∀ s ds s',
  insertEach l s = (Normal ds, s') →
  map doc ds = l
  ∧ collection s' = collection s ++ ds
  ∧ Forall (λ d, (next_oid s ≤ _id d)%N) ds
  ∧ (next_oid s ≤ next_oid s')%N
  ∧ journal s' = journal s ∧ console s' = console s.
Proof.
  induction l as [|a l IH]; intros s ds s'; simpl.
  - intros [= <- <-]. rewrite app_nil_r. repeat split; [constructor|lia].
  - unfold bind at 1.
    destruct (insertOne a s) as [[d|e] s1] eqn:E1; [|done].
    unfold bind at 1.
    destruct (insertEach l s1) as [[ds1|e] s2] eqn:E2; [|done].
    intros [= <- <-].
    apply insertOne_Normal in E1 as (_ & -> & ->).
    apply IH in E2 as (Hm & Hc & Hf & Hn & Hj & Ho). simpl in *.
    rewrite Hm, Hc, Hj, Ho, <- app_assoc. repeat split; [|lia].
    constructor; [simpl; lia|].
    eapply Forall_impl; [exact Hf|]. simpl. intros; lia.
Qed.

Lemma insertEach_Throw l : ∀ s e s',
  insertEach l s = (Throw e, s') →
  journal s' = journal s ∧ console s' = console s.
Proof.
  induction l as [|a l IH]; intros s e s'; simpl; [done|].
  unfold bind at 1.
  destruct (insertOne a s) as [[d|e1] s1] eqn:E1.
  - unfold bind at 1.
    destruct (insertEach l s1) as [[ds1|e2] s2] eqn:E2; [done|].
    intros [= <- <-].
    apply insertOne_Normal in E1 as (_ & _ & ->).
    by apply IH in E2 as [-> ->].
  - intros [= <- <-]. by apply insertOne_Throw in E1 as (_ & _ & ->).
Qed.

Lemma seed_unfold data w1 w2 s :
  seed data w1 w2 s =
    match w1 with
    | Rejects e =>
        (Normal tt,
         logged ("Failed to seed database: " +:+ message e)
           (called CDeleteMany s))
    | Answers =>
        match check_all data, w2 with
        | Throw e, _ | Normal _, Rejects e =>
            (Normal tt,
             logged ("Failed to seed database: " +:+ message e)
               (cleared data s))
        | Normal l, Answers =>
            match insertEach l (cleared data s) with
            | (Normal _, s') =>
                (Normal tt, logged "Database seeded successfully!" s')
            | (Throw e, s') =>
                (Normal tt,
                 logged ("Failed to seed database: " +:+ message e) s')
            end
        end
    end.
Proof.
  unfold seedDatabase, try_catch, bind, Avocado_deleteMany,
    Avocado_insertMany, bind, tell, reach, lift, cleared.
  destruct w1 as [|e1]; [|reflexivity]. simpl.
  destruct (check_all data) as [l|e]; [|reflexivity].
  destruct w2 as [|e2]; [|reflexivity]. simpl.
  unfold called. simpl.
  by destruct (insertEach l _) as [[ds|e] s'].
Qed.

(** [seedDatabase] swallows every failure: it always completes normally. *)
Lemma seed_total data w1 w2 s : fst (seed data w1 w2 s) = Normal tt.
Proof.
  rewrite seed_unfold. destruct w1; [|done].
  destruct (check_all data) as [l|e]; [|done]. destruct w2; [|done].
  by destruct (insertEach l (cleared data s)) as [[ds|e] s'].
Qed.

(** The calls it makes: [deleteMany], then [insertMany] unless the first
    failed; and the one line it logs. *)
Lemma seed_calls data w1 w2 s :
  journal (snd (seed data w1 w2 s))
  = journal s
    ++ match w1 with
       | Answers => [CDeleteMany; CInsertMany data]
       | Rejects _ => [CDeleteMany]
       end.
Proof.
  rewrite seed_unfold. destruct w1; [|done].
  destruct (check_all data) as [l|e];
    [|by simpl; rewrite <- app_assoc]. destruct w2;
    [|by simpl; rewrite <- app_assoc].
  destruct (insertEach l (cleared data s)) as [[ds|e] s'] eqn:Ei; simpl.
  - apply insertEach_Normal in Ei as (_ & _ & _ & _ & -> & _).
    simpl. by rewrite <- app_assoc.
  - apply insertEach_Throw in Ei as [-> _]. simpl. by rewrite <- app_assoc.
Qed.

Lemma seed_failure_logged data w1 w2 s :
  console (snd (seed data w1 w2 s))
  ≠ console s ++ ["Database seeded successfully!"] →
  ∃ err,
    console (snd (seed data w1 w2 s))
    = console s ++ ["Failed to seed database: " +:+ message err].
Proof.
  rewrite seed_unfold. destruct w1; [|simpl; eauto].
  destruct (check_all data) as [l|e]; [|simpl; eauto].
  destruct w2; [|simpl; eauto].
  destruct (insertEach l (cleared data s)) as [[ds|e] s'] eqn:Ei; simpl.
  - apply insertEach_Normal in Ei as (_ & _ & _ & _ & _ & ->). done.
  - apply insertEach_Throw in Ei as [_ ->]. eauto.
Qed.

Lemma failure_line_is_not_success (l : list string) (m : string) :
  l ++ ["Failed to seed database: " +:+ m]
  ≠ l ++ ["Database seeded successfully!"].
Proof. intros H%app_inv_head. injection H. discriminate. Qed.

(** A seed that logs its success went through both store calls. *)
Lemma seed_success data w1 w2 s :
  console (snd (seed data w1 w2 s))
  = console s ++ ["Database seeded successfully!"] →
  ∃ l ds s1,
    w1 = Answers ∧ w2 = Answers ∧ check_all data = Normal l
    ∧ insertEach l (cleared data s) = (Normal ds, s1)
    ∧ snd (seed data w1 w2 s) = logged "Database seeded successfully!" s1.
Proof.
  rewrite seed_unfold. destruct w1 as [|e1].
  2:{ intros H. by apply failure_line_is_not_success in H. }
  destruct (check_all data) as [l|e].
  2:{ intros H. by apply failure_line_is_not_success in H. }
  destruct w2 as [|e2].
  2:{ intros H. by apply failure_line_is_not_success in H. }
  destruct (insertEach l (cleared data s)) as [[ds|e] s1] eqn:Ei.
  - intros _. by exists l, ds, s1.
  - apply insertEach_Throw in Ei as [_ Ho]. simpl. rewrite Ho. simpl.
    intros H. by apply failure_line_is_not_success in H.
Qed.

(** Whatever a bulk insertion comes to, the collection is the former one
    followed by documents under fresh internal identities. *)
Lemma insertEach_appends l : ∀ s r s',
  insertEach l s = (r, s') →
  ∃ ds, collection s' = collection s ++ ds
        ∧ Forall (λ d, (next_oid s ≤ _id d)%N) ds.
Proof.
  induction l as [|a l IH]; intros s r s'; simpl.
  - intros [= _ <-]. exists []. by rewrite app_nil_r.
  - unfold bind at 1. unfold insertOne at 1.
    destruct (taken (id a) s).
    { intros [= _ <-]. exists []. by rewrite app_nil_r. }
    unfold bind at 1.
    destruct (insertEach l _) as [[ds1|e] s1] eqn:Ei;
      intros [= _ <-]; apply IH in Ei as (ds & Hc & Hf); simpl in *;
      exists ({| _id := next_oid s; doc := a |} :: ds);
      (split; [by rewrite Hc, <- app_assoc|]);
      (constructor; [simpl; lia|]);
      (eapply Forall_impl; [exact Hf|]; simpl; intros; lia).
Qed.

(** A dataset with distinct ids, none of them in the collection, goes in
    whole. *)
Lemma insertEach_succeeds l : ∀ s,
  distinct_records l →
  Forall (λ a, taken (id a) s = false) l →
  ∃ ds s', insertEach l s = (Normal ds, s').
Proof.
  induction l as [|a l IH]; intros s Hd Hl; simpl; [by eexists _, _|].
  destruct Hd as [Ha Hd]. apply Forall_cons in Hl as [Hta Hl].
  unfold bind at 1. unfold insertOne at 1. rewrite Hta.
  unfold bind at 1.
  edestruct (IH {| collection := collection s
                     ++ [{| _id := next_oid s; doc := a |}];
                   next_oid := N.succ (next_oid s);
                   journal := journal s; console := console s |} Hd)
    as (ds & s' & ->); [|by eexists _, _].
  rewrite Forall_forall in Hl, Ha. apply Forall_forall. intros a' Hin.
  specialize (Hl a' Hin). specialize (Ha a' Hin).
  apply taken_false. apply taken_false in Hl. simpl.
  apply Forall_app. split; [done|]. apply Forall_singleton. simpl.
  intros H. apply Ha. by symmetry.
Qed.

(** C8: [seedDatabase] first calls [deleteMany] and then, once that is
    answered, [insertMany] with the seed dataset.  An answered [deleteMany]
    leaves no document of the prior collection, whatever becomes of the
    insertion.  When both calls are answered and the dataset validates to
    records with distinct ids, the seed logs its success and the collection
    is exactly those records; and a seed that logs its success always
    leaves exactly the validated dataset.  A seed that fails logs the
    failure and completes normally.  The top level starts the seeding when
    the flag is set, does not wait for it, and calls [app.listen] whatever
    the seeding comes to. *)
Theorem seed_replaces_the_collection
    (process_env : env) (data : list (gmap string value))
    (w1 w2 : reply) (s : world) :
  let s' := snd (seed data w1 w2 s) in
  let started := main castNumber castString process_env data w1 w2 in
  fst (seed data w1 w2 s) = Normal tt
  ∧ journal s'
    = journal s
      ++ match w1 with
         | Answers => [CDeleteMany; CInsertMany data]
         | Rejects _ => [CDeleteMany]
         end
  ∧ (w1 = Answers →
       Forall (λ d, (next_oid s ≤ _id d)%N) (collection s')
       ∧ (fresh_ids s → ∀ d, d ∈ collection s → d ∉ collection s'))
  ∧ (∀ l, w1 = Answers → w2 = Answers → check_all data = Normal l →
       distinct_records l →
       console s' = console s ++ ["Database seeded successfully!"]
       ∧ map doc (collection s') = l)
  ∧ (console s' = console s ++ ["Database seeded successfully!"] →
       check_all data = Normal (map doc (collection s'))
       ∧ Forall (λ d, (next_oid s ≤ _id d)%N) (collection s')
       ∧ (fresh_ids s → ∀ d, d ∈ collection s → d ∉ collection s'))
  ∧ (console s' ≠ console s ++ ["Database seeded successfully!"] →
       ∃ err,
         console s'
         = console s ++ ["Failed to seed database: " +:+ message err])
  ∧ listening started = port process_env
  ∧ (∀ flag, RESET_DB process_env = Some flag → flag ≠ "" →
       seeding started = Some (seed data w1 w2))
  ∧ (RESET_DB process_env = None → seeding started = None).
Proof.
  intros s' started. subst s' started.
  assert (∀ t : world,
            Forall (λ d, (next_oid s ≤ _id d)%N) (collection t) →
            fresh_ids s → ∀ d, d ∈ collection s → d ∉ collection t)
    as Hgone.
  { intros t Hf Hfresh d Hd Hin.
    unfold fresh_ids in Hfresh. rewrite Forall_forall in Hfresh, Hf.
    specialize (Hfresh d Hd). specialize (Hf d Hin). lia. }
  assert (w1 = Answers →
          Forall (λ d, (next_oid s ≤ _id d)%N)
            (collection (snd (seed data w1 w2 s)))) as Hnew.
  { intros ->. rewrite seed_unfold.
    destruct (check_all data) as [l|e]; [|constructor].
    destruct w2; [|constructor].
    destruct (insertEach l (cleared data s)) as [[ds|e] s1] eqn:Ei;
      apply insertEach_appends in Ei as (ds' & Hc & Hf); simpl in *;
      by rewrite Hc. }
  split; [apply seed_total|]. split; [apply seed_calls|]. split.
  { intros Hw. split; [by apply Hnew|]. by apply Hgone, Hnew. }
  split.
  { intros l -> -> El Hd. rewrite seed_unfold, El.
    destruct (insertEach_succeeds l (cleared data s) Hd) as (ds & s1 & Ei).
    { apply Forall_forall. by intros a _. }
    rewrite Ei. simpl.
    apply insertEach_Normal in Ei as (Hm & Hc & _ & _ & _ & Ho).
    split; [by rewrite Ho|]. by rewrite Hc. }
  split.
  { intros Hok. pose proof Hok as Hok'.
    apply seed_success in Hok
      as (l & ds & s1 & -> & -> & El & Ei & Hs1).
    rewrite Hs1. simpl.
    apply insertEach_Normal in Ei as (Hm & Hc & Hf & _). simpl in *.
    rewrite Hc, Hm. split; [done|]. split; [done|].
    rewrite <- Hc. apply (Hgone s1). by rewrite Hc. }
  split; [apply seed_failure_logged|]. split; [done|]. split.
  - intros flag Hf Hflag. unfold main. simpl. rewrite Hf.
    by destruct flag.
  - intros Hf. unfold main. simpl. by rewrite Hf.
Qed.

(** The internal identities stay fresh along a seed. *)
Lemma insertEach_fresh l : ∀ s r s',
  insertEach l s = (r, s') → fresh_ids s → fresh_ids s'.
Proof.
  induction l as [|a l IH]; intros s r s'; simpl.
  - by intros [= _ <-].
  - unfold bind at 1. unfold insertOne at 1.
    destruct (taken (id a) s); [by intros [= _ <-]|].
    unfold bind at 1.
    destruct (insertEach l _) as [[ds|e] s1] eqn:Ei;
      intros [= _ <-] Hf; apply (IH _ _ _ Ei); unfold fresh_ids in *;
      simpl; (apply Forall_app; split;
              [eapply Forall_impl; [exact Hf|simpl; intros; lia]
              |repeat constructor; simpl; lia]).
Qed.

Lemma seed_fresh data w1 w2 s :
  fresh_ids s → fresh_ids (snd (seed data w1 w2 s)).
Proof.
  intros Hf. rewrite seed_unfold. destruct w1; [|done].
  destruct (check_all data) as [l|e]; [|constructor].
  destruct w2; [|constructor].
  destruct (insertEach l (cleared data s)) as [[ds|e] s1] eqn:Ei;
    apply insertEach_fresh in Ei; (done || constructor).
Qed.

End Seed.


(** * The theorems at concrete requests *)

Lemma created_record_is_retrievable_witness :
  post_avocadoSalesData typedNumber typedString Answers usa_2020_body
    empty_world
  = (Normal (Response 201 (Single (Document 0 usa_2020))), after_create)
  ∧ fst (get_avocadoSalesData_id Answers "1"
           (serve typedNumber typedString later_requests after_create))
    = Normal (Response 200 (Single (Document 0 usa_2020))).
Proof.
  assert (post_avocadoSalesData typedNumber typedString Answers
            usa_2020_body empty_world
          = (Normal (Response 201 (Single (Document 0 usa_2020))),
             after_create)) as H by (vm_compute; reflexivity).
  split; [exact H|].
  exact (f_equal fst
           (created_record_is_retrievable typedNumber typedString Answers
              usa_2020_body empty_world (Document 0 usa_2020) after_create
              later_requests "1" 1%Q H eq_refl (Qeq_refl 1))).
Defined.

Lemma missing_field_is_rejected_witness :
  let body := <["totalVolume" := VNum (Num 0)]> usa_2020_body in
  "totalVolume" ∈ required ∧ lacking body "totalVolume"
  ∧ post_avocadoSalesData typedNumber typedString Answers body one_record
    = (Normal (Response 400 (Failure "All fields are required" None)),
       one_record).
Proof.
  intros body.
  assert ("totalVolume" ∈ required) as Hk
    by (unfold required; repeat constructor).
  assert (lacking body "totalVolume") as Hl
    by (unfold lacking; right; right; right; exists 0%Q; split;
        [vm_compute; reflexivity|reflexivity]).
  split; [exact Hk|]. split; [exact Hl|].
  exact (missing_field_is_rejected typedNumber typedString Answers body one_record
           "totalVolume" Hk Hl).
Defined.

Lemma id_is_tested_like_the_other_fields_witness :
  let body := delete "id" usa_2020_body in
  body !! "id" = None
  ∧ post_avocadoSalesData typedNumber typedString Answers body one_record
    = (Normal (Response 400 (Failure "All fields are required" None)),
       one_record).
Proof.
  intros body.
  assert (body !! "id" = None) as H by (vm_compute; reflexivity).
  split; [exact H|].
  exact (proj1 (proj1 (id_is_tested_like_the_other_fields typedNumber
                         typedString body (or_introl H)) Answers one_record)).
Defined.

Lemma create_outcomes_witness :
  (∀ k, k ∈ required → truthy (prop usa_2020_body k) = true)
  ∧ post_avocadoSalesData typedNumber typedString Answers usa_2020_body one_record
    = (Normal
         (Response 409
            (Failure "Duplicate ID: An entry with this ID already exists"
               None)),
       called (CSave (picked usa_2020_body)) one_record).
Proof.
  assert (∀ k, k ∈ required → truthy (prop usa_2020_body k) = true) as H.
  { apply complete_true. vm_compute. reflexivity. }
  split; [exact H|].
  refine (proj1 (proj1 (proj2 (create_outcomes typedNumber typedString Answers
                                 usa_2020_body one_record H))
                   duplicate_key _ _ _)).
  - vm_compute. reflexivity.
  - reflexivity.
Defined.

Lemma unparsable_id_is_refused_witness :
  Number "abc" = NaN
  ∧ fst (get_avocadoSalesData_id Answers "abc" one_record)
    = Normal
        (Response 500
           (Failure "Failed to retrieve data"
              (Some (message (cast_failed "id"))))).
Proof.
  assert (Number "abc" = NaN) as H by reflexivity.
  split; [exact H|].
  exact (proj2 (proj2 (unparsable_id_is_refused Answers "abc" one_record H))).
Defined.

(** The example of the specification, id 999: no such record. *)
Example get_999 :
  fst (get_avocadoSalesData_id Answers "999" one_record)
  = Normal
      (Response 404 (Failure "No avocado sales data found for ID: 999" None)).
Proof. vm_compute. reflexivity. Qed.

(** A list request on an empty collection. *)
Example list_nothing :
  fst (get_avocadoSalesData Answers ∅ empty_world)
  = Normal
      (Response 404
         (Failure "No avocado sales data found for the given filters" None)).
Proof. vm_compute. reflexivity. Qed.

(** A seed over a collection with an older record: the record is gone, the
    dataset is in. *)
Example seed_over_older_record :
  let s' :=
    snd (seedDatabase typedNumber typedString [usa_2020_body] Answers Answers
           older_record) in
  collection s' = [Document 1 usa_2020]
  ∧ console s' = ["Database seeded successfully!"]
  ∧ fst (get_avocadoSalesData_id Answers "7" s')
    = Normal
        (Response 404 (Failure "No avocado sales data found for ID: 7" None)).
Proof. vm_compute. repeat split; reflexivity. Qed.

(** A seed whose dataset repeats an id fails at the unique index; the
    top level has called [app.listen] all the same. *)
Example seed_failure_still_listens :
  let started :=
    main typedNumber typedString (Env None None (Some "true"))
      [usa_2020_body; usa_2020_body] Answers Answers in
  listening started = "8080"
  ∧ ∃ task, seeding started = Some task
            ∧ fst (task older_record) = Normal tt
            ∧ console (snd (task older_record))
              = [ "Failed to seed database: " +:+ message duplicate_key ].
Proof.
  split; [reflexivity|]. eexists. split; [reflexivity|].
  vm_compute. split; reflexivity.
Qed.

(** * Further properties of the handlers *)

(** ** Truthiness and the presence test *)

Lemma truthy_false_iff v : truthy v = false ↔ falsy v.
Proof.
  unfold falsy. destruct v as [| |[]|[|b|q]|[|c r]|]; simpl.
  - tauto.
  - tauto.
  - split; [done|]. intros [?|[?|[?|[?|[?|(q & ? & _)]]]]]; done.
  - tauto.
  - tauto.
  - split; [done|]. intros [?|[?|[?|[?|[?|(q & ? & _)]]]]]; done.
  - rewrite negb_false_iff, Qeq_bool_iff. split.
    + intros Hq. do 5 right. by exists q.
    + intros [?|[?|[?|[?|[?|(q' & [= <-] & Hq)]]]]]; done.
  - tauto.
  - split; [done|]. intros [?|[?|[?|[?|[?|(q & ? & _)]]]]]; done.
  - split; [done|]. intros [?|[?|[?|[?|[?|(q & ? & _)]]]]]; done.
Qed.

Lemma complete_false_inv body :
  complete body = false → ∃ k, k ∈ required ∧ truthy (prop body k) = false.
Proof.
  unfold complete. induction required as [|k l IH]; simpl; [done|].
  intros [Hk|Hl]%andb_false_iff.
  - exists k. split; [constructor|done].
  - destruct (IH Hl) as (k' & Hin & Hf). exists k'. split; [|done].
    by constructor.
Qed.

(** In a collection with distinct ids, looking an id up finds the document
    that has it. *)
Lemma lookup_distinct q d l :
  distinct_ids l → d ∈ l → (q == id (doc d))%Q →
  head (filter (matches {[ "id" := VNum (Num q) ]}) l) = Some d.
Proof.
  induction l as [|d0 l IH]; simpl; [by intros _ ?%elem_of_nil|].
  intros [Hd0 Hl] [->|Hin]%elem_of_cons Hq.
  - rewrite filter_cons_True; [done|].
    apply matches_id. exists q. split; [done|]. by symmetry.
  - rewrite filter_cons_False; [by apply IH|].
    rewrite matches_id. intros (q' & [= <-] & H0).
    rewrite Forall_forall in Hd0. apply (Hd0 d Hin).
    by rewrite H0, Hq.
Qed.

(** What a lookup finds is a stored document with the number looked up. *)
Lemma lookup_found n d (l : list document) :
  head (filter (matches {[ "id" := VNum n ]}) l) = Some d →
  d ∈ l ∧ ∃ q, n = Num q ∧ (q == id (doc d))%Q.
Proof.
  intros H. assert (d ∈ filter (matches {[ "id" := VNum n ]}) l) as Hin.
  { destruct (filter _ l) as [|d' l']; [done|].
    simpl in H. injection H as ->. constructor. }
  apply list_elem_of_filter in Hin as [(q & -> & Hq)%matches_id Hin].
  split; [done|]. exists q. split; [done|]. by symmetry.
Qed.

Lemma lookup_none n (l : list document) :
  head (filter (matches {[ "id" := VNum n ]}) l) = None ↔
  ∀ d, d ∈ l → ¬ matches {[ "id" := VNum n ]} d.
Proof.
  split.
  - intros H d Hin Hm.
    assert (d ∈ filter (matches {[ "id" := VNum n ]}) l) as Hf
      by (by apply list_elem_of_filter).
    destruct (filter _ l); [by apply elem_of_nil in Hf|done].
  - intros H. induction l as [|d l IH]; [done|].
    rewrite filter_cons_False; [|apply H; constructor].
    apply IH. intros d' Hd'. apply H. by constructor.
Qed.

Lemma filter_all (l : list document) : filter (selects None None) l = l.
Proof.
  induction l as [|d l IH]; [done|].
  rewrite filter_cons_True; [by rewrite IH|]. by split.
Qed.

Section Further.

Variable castNumber : string → value → completion Q.
Variable castString : string → value → completion string.

#[local] Abbreviation post := (post_avocadoSalesData castNumber castString).
#[local] Abbreviation save := (Avocado_save castNumber castString).
#[local] Abbreviation check := (validate castNumber castString).
#[local] Abbreviation seed := (seedDatabase castNumber castString).
#[local] Abbreviation check_all := (validate_all castNumber castString).

(** The create handler in full: refused by the presence test, or the
    outcome of validation, the call and the unique index. *)
Lemma post_cases w body s :
  post w body s =
    if complete body
    then match check (picked body), w with
         | Throw e, _ | Normal _, Rejects e =>
             (Normal (if decide (code e = Some 11000%Z)
                      then duplicate_id else creation_failed e),
              called (CSave (picked body)) s)
         | Normal a, Answers =>
             if taken (id a) s
             then (Normal duplicate_id, called (CSave (picked body)) s)
             else
               let d := {| _id := next_oid s; doc := a |} in
               (Normal (Response 201 (Single d)),
                {| collection := collection s ++ [d];
                   next_oid := N.succ (next_oid s);
                   journal := journal s ++ [CSave (picked body)];
                   console := console s |})
         end
    else (Normal all_fields_required, s).
Proof.
  rewrite post_unfold. destruct (complete body); [|done].
  rewrite save_unfold. destruct (check (picked body)) as [a|e]; [|done].
  destruct w as [|e]; [|done]. unfold insertOne.
  change (taken (id a) (called (CSave (picked body)) s))
    with (taken (id a) s).
  by destruct (taken (id a) s).
Qed.

(** X1: the answer "All fields are required" is given exactly when one of
    the eight fields is falsy: omitted, null, false, NaN, the empty string
    or 0. *)
Theorem all_fields_required_iff w body s :
  fst (post w body s)
  = Normal (Response 400 (Failure "All fields are required" None))
  ↔ ∃ k, k ∈ required ∧ falsy (prop body k).
Proof.
  setoid_rewrite <- truthy_false_iff. rewrite post_cases.
  destruct (complete body) eqn:Ec.
  - split.
    + destruct (check (picked body)) as [a|e]; [destruct w as [|e]|].
      * by destruct (taken (id a) s).
      * simpl. by case_decide.
      * simpl. by case_decide.
    + intros (k & Hk & Hf). by rewrite (complete_false _ _ Hk Hf) in Ec.
  - split; [intros _; by apply complete_false_inv|done].
Qed.

(** X2: a POST stores a record exactly when it answers 201, and then
    appends that one record, validated from the eight fields of the body;
    in every other case the collection is left as it was.  No record that
    was stored is ever changed or removed. *)
Theorem post_appends_or_keeps w body s :
  let r := fst (post w body s) in
  let s' := snd (post w body s) in
  ((∃ R, r = Normal (Response 201 (Single R))
         ∧ collection s' = collection s ++ [R]
         ∧ check (picked body) = Normal (doc R))
   ∨ ((∃ a, r = Normal a ∧ status a ≠ 201)
      ∧ collection s' = collection s))
  ∧ collection s `prefix_of` collection s'.
Proof.
  intros r s'. subst r s'. rewrite post_cases.
  destruct (complete body).
  2:{ split; [right; split; [eexists; split; [done|done]|done]|done]. }
  destruct (check (picked body)) as [a|e] eqn:Ea; [destruct w as [|e]|].
  - destruct (taken (id a) s).
    + split; [right; split; [eexists; split; [done|done]|done]|done].
    + split; [left; eexists; done|]. simpl. by apply prefix_app_r.
  - split; [right; split; [|done]|done].
    case_decide; eexists; (split; [done|done]).
  - split; [right; split; [|done]|done].
    case_decide; eexists; (split; [done|done]).
Qed.

(** X3: the status codes.  POST answers 201, 400 or 409; both GET
    handlers answer 200, 404 or 500; none of the three ever throws. *)
Theorem status_codes w body (q : gmap string string) (p : string) s :
  (∃ r, fst (post w body s) = Normal r
        ∧ (status r = 201 ∨ status r = 400 ∨ status r = 409))
  ∧ (∃ r, fst (get_avocadoSalesData w q s) = Normal r
          ∧ (status r = 200 ∨ status r = 404 ∨ status r = 500))
  ∧ (∃ r, fst (get_avocadoSalesData_id w p s) = Normal r
          ∧ (status r = 200 ∨ status r = 404 ∨ status r = 500)).
Proof.
  split; [|split].
  - rewrite post_cases. destruct (complete body); [|simpl; eauto].
    destruct (check (picked body)) as [a|e]; [destruct w as [|e]|].
    + destruct (taken (id a) s); simpl; eauto.
    + simpl. case_decide; simpl; eauto.
    + simpl. case_decide; simpl; eauto.
  - destruct w as [|e]; [rewrite list_answered|rewrite list_rejected].
    + unfold listing. destruct (0 <? _)%nat; simpl; eauto.
    + simpl. eauto.
  - destruct w as [|e]; [rewrite by_id_answered|rewrite by_id_rejected].
    + destruct (Number p); [simpl; eauto|destruct (head _); simpl; eauto..].
    + simpl. eauto.
Qed.

Lemma listing_nonempty (l : list document) :
  l ≠ [] → listing l = Response 200 (Records l).
Proof. unfold listing. by destruct l. Qed.

Lemma matches_id_denotes p d :
  matches {[ "id" := VNum (Number p) ]} d ↔ denotes p (id (doc d)).
Proof.
  rewrite matches_id. unfold denotes.
  split; intros (q & Hq & He); exists q; (split; [done|by symmetry]).
Qed.

(** X4: a second POST with the id of a record that was created is answered
    409 and stores nothing, and the record created first is still what GET
    with that id returns. *)
Theorem second_create_is_refused w body s R s' body2 a :
  post w body s = (Normal (Response 201 (Single R)), s') →
  (∀ k, k ∈ required → truthy (prop body2 k) = true) →
  check (picked body2) = Normal a → (id a == id (doc R))%Q →
  post Answers body2 s'
  = (Normal
       (Response 409
          (Failure "Duplicate ID: An entry with this ID already exists"
             None)),
     called (CSave (picked body2)) s')
  ∧ ∀ p q, Number p = Num q → (q == id (doc R))%Q →
      fst (get_avocadoSalesData_id Answers p
             (called (CSave (picked body2)) s'))
      = Normal (Response 200 (Single R)).
Proof.
  intros (_ & _ & Hnew & _ & Hc & _)%post_201%save_Normal
    Hb%complete_true Ha Hid.
  split.
  - rewrite post_cases, Hb, Ha.
    assert (taken (id a) s' = true) as ->; [|done].
    apply taken_true. exists R. split; [|by symmetry].
    rewrite Hc. apply elem_of_app. right. constructor.
  - intros p q Hp Hq. rewrite by_id_answered, Hp. simpl collection.
    by rewrite Hc, (lookup_appended _ _ _ Hnew Hq).
Qed.

(** X5: only the eight fields of the body count: two bodies that agree on
    them are answered alike and leave the same world, whatever else they
    hold. *)
Theorem only_the_eight_fields_count w body1 body2 s :
  (∀ k, k ∈ required → body1 !! k = body2 !! k) →
  post w body1 s = post w body2 s.
Proof.
  intros H.
  assert (∀ k, k ∈ required → prop body1 k = prop body2 k) as Hp
    by (intros k Hk; unfold prop; by rewrite (H k Hk)).
  assert (picked body1 = picked body2) as Hpick.
  { unfold picked.
    rewrite (Hp "id"), (Hp "date"), (Hp "region"), (Hp "averagePrice"),
      (Hp "totalVolume"), (Hp "smallBags"), (Hp "largeBags"),
      (Hp "xLargeBags") by (unfold required; repeat constructor).
    done. }
  assert (complete body1 = complete body2) as Hcomp.
  { unfold complete. cbn [forallb required].
    rewrite (Hp "id"), (Hp "date"), (Hp "region"), (Hp "averagePrice"),
      (Hp "totalVolume"), (Hp "smallBags"), (Hp "largeBags"),
      (Hp "xLargeBags") by (unfold required; repeat constructor).
    done. }
  by rewrite !post_unfold, Hpick, Hcomp.
Qed.

(** X6: the GET handlers only read: whatever the store replies, the
    collection is as before, and their answer depends on nothing but the
    collection. *)
Theorem reads_change_nothing
    w (q : gmap string string) (p : string) (s : world) :
  collection (snd (get_avocadoSalesData w q s)) = collection s
  ∧ collection (snd (get_avocadoSalesData_id w p s)) = collection s
  ∧ ∀ t, collection t = collection s →
      fst (get_avocadoSalesData w q t) = fst (get_avocadoSalesData w q s)
      ∧ fst (get_avocadoSalesData_id w p t)
        = fst (get_avocadoSalesData_id w p s).
Proof.
  destruct w as [|e].
  - rewrite list_answered, by_id_answered. split; [done|split; [done|]].
    intros t Ht. by rewrite !list_answered, !by_id_answered, Ht.
  - rewrite list_rejected, by_id_rejected. split; [done|split; [done|]].
    intros t Ht. by rewrite !list_rejected, !by_id_rejected.
Qed.

(** X7: a list request that gives neither a date nor a region (none, or
    empty ones, or other parameters only) returns the whole collection, in
    its stored order. *)
Theorem list_without_criteria_returns_all
    (q : gmap string string) (s : world) :
  given q "date" = None → given q "region" = None → collection s ≠ [] →
  fst (get_avocadoSalesData Answers q s)
  = Normal (Response 200 (Records (collection s))).
Proof.
  intros Hd Hr Hne.
  rewrite list_answered, filter_query_of, Hd, Hr, filter_all. simpl.
  by rewrite listing_nonempty.
Qed.

(** X8: for a segment that reads as a finite number and a lookup the
    store answers, GET /avocadoSalesData/:id answers 200 exactly when a
    stored record has that number as its id, and then with such a record;
    when no stored record has it, the answer is 404 with the message that
    quotes the segment. *)
Theorem get_by_id_finds_stored_ids (p : string) (s : world) :
  (∀ q d, Number p = Num q →
          fst (get_avocadoSalesData_id Answers p s)
          = Normal (Response 200 (Single d)) →
          d ∈ collection s ∧ (q == id (doc d))%Q)
  ∧ ((∃ d, d ∈ collection s ∧ denotes p (id (doc d))) →
     ∃ d, fst (get_avocadoSalesData_id Answers p s)
          = Normal (Response 200 (Single d)))
  ∧ (∀ q, Number p = Num q →
     (∀ d, d ∈ collection s → ¬ (q == id (doc d))%Q) →
     fst (get_avocadoSalesData_id Answers p s)
     = Normal
         (Response 404
            (Failure ("No avocado sales data found for ID: " +:+ p) None))).
Proof.
  unfold denotes. rewrite by_id_answered. simpl.
  destruct (Number p) as [|b|q0] eqn:Ep.
  - split; [done|split; [|done]]. by intros (d & _ & q & ? & _).
  - split; [done|split; [|done]]. by intros (d & _ & q & ? & _).
  - destruct (head _) as [d0|] eqn:Eh.
    + apply lookup_found in Eh as (Hin & q & [= <-] & Hq).
      split; [|split].
      * intros q' d [= <-] [= <-]. split; [done|]. by symmetry.
      * intros _. by exists d0.
      * intros q [= <-] Hno. by destruct (Hno d0 Hin).
    + rewrite lookup_none in Eh. split; [done|split; [|done]].
      intros (d & Hin & q & [= <-] & Hq). destruct (Eh d Hin).
      apply matches_id. exists q0. split; [done|]. by symmetry.
Qed.

(** X10: when the ids of the collection are distinct, every stored record
    is what GET /avocadoSalesData/:id returns for a segment that denotes
    its id. *)
Theorem stored_record_is_retrievable (p : string) q d (s : world) :
  unique_ids s → d ∈ collection s →
  Number p = Num q → (q == id (doc d))%Q →
  get_avocadoSalesData_id Answers p s
  = (Normal (Response 200 (Single d)),
     called (CFindOne {[ "id" := VNum (Num q) ]}) s).
Proof.
  intros Hu Hin Hp Hq. rewrite by_id_answered, Hp.
  by rewrite (lookup_distinct _ _ _ Hu Hin Hq).
Qed.

(** X11: a record that was created is in the list: the list without
    criteria is the former collection followed by the record, and a list
    filtered by the record's own date and region contains it. *)
Theorem created_record_is_listed w body s R s' :
  post w body s = (Normal (Response 201 (Single R)), s') →
  fst (get_avocadoSalesData Answers ∅ s')
  = Normal (Response 200 (Records (collection s ++ [R])))
  ∧ ∀ q : gmap string string,
      given q "date" = Some (date (doc R)) →
      given q "region" = Some (region (doc R)) →
      ∃ l, fst (get_avocadoSalesData Answers q s')
           = Normal (Response 200 (Records l))
           ∧ R ∈ l.
Proof.
  intros (_ & _ & _ & _ & Hc & _)%post_201%save_Normal.
  assert (R ∈ collection s') as Hin
    by (rewrite Hc; apply elem_of_app; right; constructor).
  split.
  - rewrite list_answered, filter_query_of. simpl.
    change (given ∅ "date") with (@None string).
    change (given ∅ "region") with (@None string).
    rewrite filter_all, Hc, listing_nonempty; [done|].
    by destruct (collection s).
  - intros q Hd Hr. rewrite list_answered, filter_query_of, Hd, Hr. simpl.
    assert (R ∈ filter
                  (selects (Some (date (doc R))) (Some (region (doc R))))
                  (collection s')) as Hf
      by (apply list_elem_of_filter; by split).
    eexists. split; [|exact Hf].
    rewrite listing_nonempty; [done|].
    intros He. rewrite He in Hf. by apply elem_of_nil in Hf.
Qed.

(** X12: creating a record changes the answer of GET /avocadoSalesData/:id
    for no segment but those that denote the new record's id. *)
Theorem create_leaves_other_ids w body s R s' (p : string) :
  post w body s = (Normal (Response 201 (Single R)), s') →
  ¬ denotes p (id (doc R)) →
  fst (get_avocadoSalesData_id Answers p s')
  = fst (get_avocadoSalesData_id Answers p s).
Proof.
  intros (_ & _ & _ & _ & Hc & _)%post_201%save_Normal Hp.
  rewrite !by_id_answered, Hc, filter_app. simpl.
  rewrite (filter_cons_False _ R); [by rewrite filter_nil, app_nil_r|].
  by rewrite matches_id_denotes.
Qed.

(** X13: the seeding does not undo its [deleteMany].  When [deleteMany] is
    rejected the collection is untouched and [insertMany] is never called;
    when it is answered and the dataset is then refused by validation or
    the insertion is rejected, the collection is left empty, and the
    failure is what the console shows. *)
Theorem failed_seed_outcomes data w2 s :
  (∀ e, snd (seed data (Rejects e) w2 s)
        = logged (seed_failure e) (called CDeleteMany s))
  ∧ (∀ e, check_all data = Throw e →
       collection (snd (seed data Answers w2 s)) = []
       ∧ last (console (snd (seed data Answers w2 s)))
         = Some (seed_failure e))
  ∧ (∀ e l, check_all data = Normal l →
       collection (snd (seed data Answers (Rejects e) s)) = []
       ∧ last (console (snd (seed data Answers (Rejects e) s)))
         = Some (seed_failure e)).
Proof.
  split; [|split].
  - intros e. by rewrite seed_unfold.
  - intros e He. rewrite seed_unfold, He. simpl. split; [done|].
    apply last_snoc.
  - intros e l Hl. rewrite seed_unfold, Hl. simpl. split; [done|].
    apply last_snoc.
Qed.

Lemma taken_agree n s t :
  map doc (collection s) = map doc (collection t) → taken n s = taken n t.
Proof.
  unfold taken. generalize (collection s) (collection t).
  intros l1. induction l1 as [|d1 l1 IH]; intros [|d2 l2]; simpl; try done.
  intros [= Hd Hl]. by rewrite Hd, (IH _ Hl).
Qed.

(** Whether a bulk insertion goes through, and which records it stores,
    depends on the records of the collection only. *)
Lemma insertEach_agree l : ∀ s t ds s',
  map doc (collection s) = map doc (collection t) →
  insertEach l s = (Normal ds, s') →
  ∃ dt t', insertEach l t = (Normal dt, t')
           ∧ map doc (collection s') = map doc (collection t').
Proof.
  induction l as [|a l IH]; intros s t ds s' Hst; simpl.
  - intros [= <- <-]. by eexists _, _.
  - unfold bind at 1 3. unfold insertOne at 1 2.
    rewrite <- (taken_agree (id a) s t Hst).
    destruct (taken (id a) s); [done|].
    unfold bind at 1 2.
    destruct (insertEach l _) as [[ds1|e] s1] eqn:Ei; [|done].
    intros [= <- <-].
    eapply IH in Ei as (dt & t' & -> & Hc).
    + by eexists _, _.
    + simpl. by rewrite !map_app, Hst.
Qed.

(** X14: seeding is repeatable: after a seed that logged its success, a
    second seed that the store answers succeeds too and leaves the same
    records. *)
Theorem reseeding_gives_the_same_records data w1 w2 s :
  let s1 := snd (seedDatabase castNumber castString data w1 w2 s) in
  let s2 :=
    snd (seedDatabase castNumber castString data Answers Answers s1) in
  console s1 = console s ++ ["Database seeded successfully!"] →
  console s2 = console s1 ++ ["Database seeded successfully!"]
  ∧ map doc (collection s2) = map doc (collection s1).
Proof.
  intros s1 s2 (l & ds & s0 & -> & -> & El & Ei & Hs1)%seed_success.
  subst s2 s1. rewrite Hs1.
  rewrite (seed_unfold _ _ data Answers Answers), El.
  destruct (insertEach_agree l (cleared data s)
              (cleared data (logged "Database seeded successfully!" s0))
              ds s0 eq_refl Ei) as (dt & t' & Et & Hc).
  rewrite Et. simpl. split; [|by rewrite Hc].
  apply insertEach_Normal in Et as (_ & _ & _ & _ & _ & ->). done.
Qed.

(** X15: the lookup goes by the number, not by its writing: two segments
    that denote the same number fetch the same record. *)
Theorem equal_numbers_find_the_same (p1 p2 : string) q1 q2 (s : world) :
  Number p1 = Num q1 → Number p2 = Num q2 → (q1 == q2)%Q →
  ∀ d, fst (get_avocadoSalesData_id Answers p1 s)
       = Normal (Response 200 (Single d))
       ↔ fst (get_avocadoSalesData_id Answers p2 s)
         = Normal (Response 200 (Single d)).
Proof.
  intros H1 H2 Hq d. rewrite !by_id_answered, H1, H2. simpl.
  assert (filter (matches {[ "id" := VNum (Num q1) ]}) (collection s)
          = filter (matches {[ "id" := VNum (Num q2) ]}) (collection s))
    as ->; [|by destruct (head _)].
  apply list_filter_iff. intros d'. rewrite !matches_id.
  split; intros (q & [= <-] & He); eexists; (split; [done|]).
  - by rewrite <- Hq.
  - by rewrite Hq.
Qed.

End Further.

(** * The further properties at concrete requests *)

Lemma second_create_is_refused_witness :
  post_avocadoSalesData typedNumber typedString Answers usa_2020_body
    empty_world
  = (Normal (Response 201 (Single (Document 0 usa_2020))), after_create)
  ∧ post_avocadoSalesData typedNumber typedString Answers boston_body
      after_create
    = (Normal
         (Response 409
            (Failure "Duplicate ID: An entry with this ID already exists"
               None)),
       called (CSave (picked boston_body)) after_create).
Proof.
  assert (post_avocadoSalesData typedNumber typedString Answers
            usa_2020_body empty_world
          = (Normal (Response 201 (Single (Document 0 usa_2020))),
             after_create)) as H by (vm_compute; reflexivity).
  split; [exact H|].
  refine (proj1 (second_create_is_refused typedNumber typedString Answers
                   usa_2020_body empty_world (Document 0 usa_2020)
                   after_create boston_body boston_2020 H _ _ _)).
  - apply complete_true. vm_compute. reflexivity.
  - vm_compute. reflexivity.
  - reflexivity.
Defined.

Lemma only_the_eight_fields_count_witness :
  post_avocadoSalesData typedNumber typedString Answers usa_2020_body
    empty_world
  = post_avocadoSalesData typedNumber typedString Answers admin_body
      empty_world.
Proof.
  apply only_the_eight_fields_count.
  intros k Hk. unfold required in Hk.
  repeat (apply elem_of_cons in Hk as [->|Hk]; [vm_compute; reflexivity|]).
  by apply elem_of_nil in Hk.
Defined.

Lemma list_without_criteria_returns_all_witness :
  let q : gmap string string := {[ "page" := "2"; "date" := "" ]} in
  given q "date" = None ∧ given q "region" = None
  ∧ fst (get_avocadoSalesData Answers q one_record)
    = Normal (Response 200 (Records [Document 0 usa_2020])).
Proof.
  intros q.
  assert (given q "date" = None) as Hd by (vm_compute; reflexivity).
  assert (given q "region" = None) as Hr by (vm_compute; reflexivity).
  split; [exact Hd|]. split; [exact Hr|].
  apply (list_without_criteria_returns_all q one_record Hd Hr).
  discriminate.
Defined.

Lemma stored_record_is_retrievable_witness :
  get_avocadoSalesData_id Answers "1" one_record
  = (Normal (Response 200 (Single (Document 0 usa_2020))),
     called (CFindOne {[ "id" := VNum (Num 1) ]}) one_record).
Proof.
  refine (stored_record_is_retrievable "1" 1%Q (Document 0 usa_2020)
            one_record _ _ _ _).
  - split; constructor.
  - constructor.
  - reflexivity.
  - reflexivity.
Defined.

Lemma created_record_is_listed_witness :
  fst (get_avocadoSalesData Answers ∅ after_create)
  = Normal (Response 200 (Records [Document 0 usa_2020])).
Proof.
  refine (proj1 (created_record_is_listed typedNumber typedString Answers
                   usa_2020_body empty_world (Document 0 usa_2020)
                   after_create _)).
  vm_compute. reflexivity.
Defined.

Lemma create_leaves_other_ids_witness :
  fst (get_avocadoSalesData_id Answers "2" after_create)
  = fst (get_avocadoSalesData_id Answers "2" empty_world).
Proof.
  refine (create_leaves_other_ids typedNumber typedString Answers
            usa_2020_body empty_world (Document 0 usa_2020) after_create
            "2" _ _).
  - vm_compute. reflexivity.
  - intros (q & Hn & Hq). vm_compute in Hn. injection Hn as <-.
    vm_compute in Hq. discriminate.
Defined.

Lemma reseeding_gives_the_same_records_witness :
  let s1 :=
    snd (seedDatabase typedNumber typedString [usa_2020_body]
           Answers Answers older_record) in
  let s2 :=
    snd (seedDatabase typedNumber typedString [usa_2020_body]
           Answers Answers s1) in
  console s1 = console older_record ++ ["Database seeded successfully!"]
  ∧ console s2 = console s1 ++ ["Database seeded successfully!"]
  ∧ map doc (collection s2) = map doc (collection s1).
Proof.
  intros s1 s2.
  assert (console s1
          = console older_record ++ ["Database seeded successfully!"])
    as H by (vm_compute; reflexivity).
  split; [exact H|].
  exact (reseeding_gives_the_same_records typedNumber typedString
           [usa_2020_body] Answers Answers older_record H).
Defined.

Lemma equal_numbers_find_the_same_witness :
  fst (get_avocadoSalesData_id Answers "1" one_record)
  = Normal (Response 200 (Single (Document 0 usa_2020)))
  ↔ fst (get_avocadoSalesData_id Answers " +1.0e0 " one_record)
    = Normal (Response 200 (Single (Document 0 usa_2020))).
Proof.
  refine (equal_numbers_find_the_same "1" " +1.0e0 " _ _ one_record
            _ _ _ (Document 0 usa_2020)).
  - vm_compute. reflexivity.
  - vm_compute. reflexivity.
  - vm_compute. reflexivity.
Defined.

(** [Number] reads a segment as the double nearest to its decimal value,
    between white space that includes the no-break space. *)
Example Number_rounds_to_a_double :
  Number "9007199254740993" = Num 9007199254740992
  ∧ Number "1e-400" = Num 0
  ∧ Number "1e400" = Inf false
  ∧ Number (String (ascii_of_N 194) (String (ascii_of_N 160) "12 "))
    = Num 12
  ∧ Number "12abc" = NaN.
Proof. vm_compute. repeat split. Qed.

(** A record whose id is 2^53 is what the segment 9007199254740993, which
    rounds to it, fetches. *)
Example rounded_segment_finds_the_record :
  let body := <["id" := VNum (Num 9007199254740992)]> usa_2020_body in
  let s' :=
    snd (post_avocadoSalesData typedNumber typedString Answers body
           empty_world) in
  ∃ R, fst (get_avocadoSalesData_id Answers "9007199254740993" s')
       = Normal (Response 200 (Single R))
       ∧ id (doc R) = 9007199254740992%Q.
Proof. intros body s'. eexists. vm_compute. split; reflexivity. Qed.
